(** * Metaplex JS SDK: the Metadata model and the Bundlr storage driver

    A shallow embedding of
      - packages/js/src/plugins/nftModule/Metadata.ts
        (isMetadata, assertMetadata, toMetadata), and
      - src/plugins/bundlrStorage/BundlrStorageDriver.ts
        (the BundlrStorageDriver class),
    followed by the properties of the two components.

    Conventions.  A TypeScript [Option<T>] (that is [T | null]) is [Nullable T];
    an optional parameter [x?: T] (that is [T | undefined]) is [Optional T].
    JavaScript exceptions are explicit: a computation returns a [Completion].
    The storage driver runs in a state-and-exception monad over the driver's
    fields, the state of the storage network and a log of the calls made to
    the Bundlr client. *)

From Stdlib Require Import ZArith QArith Qround Qabs Bool List String Ascii Lia Lqa.
Import ListNotations.

Set Warnings "-register-all".

Open Scope string_scope.
Open Scope Z_scope.

(* ===================================================================== *)
(** ** JavaScript values, as far as the two modules look at them *)
(* ===================================================================== *)

Module Js.
(** [T | null] *)
Inductive Nullable (T : Type) : Type :=
| Null : Nullable T
| NotNull : T -> Nullable T.
Arguments Null {T}.
Arguments NotNull {T} _.

(** [T | undefined]: an optional parameter or an optional property.
    A call that omits the argument and a call that passes [undefined]
    are the same call in JavaScript: both are [Undefined]. *)
Inductive Optional (T : Type) : Type :=
| Undefined : Optional T
| Defined : T -> Optional T.
Arguments Undefined {T}.
Arguments Defined {T} _.

(** [x ?? d] *)
Definition nullish_or {T} (x : Nullable T) (d : T) : T :=
  match x with Null => d | NotNull v => v end.

Definition undefined_or {T} (x : Optional T) (d : T) : T :=
  match x with Undefined => d | Defined v => v end.

(** An own property of an object literal: the key is absent, or present
    with a value, which may be [undefined].  Reading the property gives
    [undefined] in the first case and the value in the second; an object
    spread copies the property in the second case only. *)
Inductive Property (T : Type) : Type :=
| Absent : Property T
| Present : Optional T -> Property T.
Arguments Absent {T}.
Arguments Present {T} _.

(** [o.k] *)
Definition read_property {T} (p : Property T) : Optional T :=
  match p with Absent => Undefined | Present v => v end.

(** A value of type [any], built of plain data: the properties are data
    properties (no accessor, no proxy).  An array is an object: besides its
    elements it has the properties that were put on it. *)
Inductive Value : Type :=
| VUndefined : Value
| VNull : Value
| VBoolean : bool -> Value
| VNumber : Z -> Value
| VString : string -> Value
| VFunction : string -> Value
| VArray : list Value -> list (string * Value) -> Value
| VObject : list (string * Value) -> Value.

(** What a JavaScript expression evaluates to. *)
Inductive Error : Type :=
| TypeError : string -> Error
| AssertionFailedError : string -> Error.

Inductive Completion (A : Type) : Type :=
| Normal : A -> Completion A
| Throw : Error -> Completion A.
Arguments Normal {A} _.
Arguments Throw {A} _.

Definition bind {A B} (c : Completion A) (k : A -> Completion B) : Completion B :=
  match c with
  | Normal a => k a
  | Throw e => Throw e
  end.

(** [typeof v] *)
Definition typeof (v : Value) : string :=
  match v with
  | VUndefined => "undefined"
  | VNull => "object"
  | VBoolean _ => "boolean"
  | VNumber _ => "number"
  | VString _ => "string"
  | VFunction _ => "function"
  | VArray _ _ => "object"
  | VObject _ => "object"
  end.

Fixpoint lookup (k : string) (props : list (string * Value)) : Value :=
  match props with
  | [] => VUndefined
  | (k', v) :: rest => if String.eqb k k' then v else lookup k rest
  end.

(** [v.k] for a name [k] that is not a built-in property: reading a
    property of [undefined] or [null] throws a TypeError, a primitive has
    no property of that name, an object or an array is looked up.  (A
    function is not given properties here: the guard of [isMetadata] answers
    for a function before any property is read.) *)
Definition get (v : Value) (k : string) : Completion Value :=
  match v with
  | VUndefined => Throw (TypeError ("Cannot read properties of undefined (reading '" ++ k ++ "')"))
  | VNull => Throw (TypeError ("Cannot read properties of null (reading '" ++ k ++ "')"))
  | VObject props => Normal (lookup k props)
  | VArray _ props => Normal (lookup k props)
  | _ => Normal VUndefined
  end.

(** [v === s] for a string literal [s] *)
Definition strict_eq_string (v : Value) (s : string) : bool :=
  match v with
  | VString s' => String.eqb s' s
  | _ => false
  end.

(** [a && b] on booleans, [b] evaluated only when [a] is true *)
Definition and_then (a : bool) (b : Completion bool) : Completion bool :=
  if a then b else Normal false.

(** In the words of the spec: [v] is an object (an array is one) whose
    [model] field is the string [m]. *)
Definition object_with_model (v : Value) (m : string) : bool :=
  match v with
  | VObject props => strict_eq_string (lookup "model" props) m
  | VArray _ props => strict_eq_string (lookup "model" props) m
  | _ => false
  end.

End Js.

(* ===================================================================== *)
(** ** packages/js/src/plugins/nftModule/Metadata.ts *)
(* ===================================================================== *)

Module Metadata.
Import Js.

(** [PublicKey] of @solana/web3.js, by its base-58 text. *)
Definition PublicKey : Type := string.

(** [Pda] of '@/types': a public key with its bump. *)
Record Pda : Type := mkPda { pda_key : PublicKey; pda_bump : Z }.

(** [BigNumber] of '@/types': an arbitrary-precision integer. *)
Definition BigNumber : Type := Z.

(** Modelled from the spec: [toBigNumber] of '@/types' is not in the
    sources at hand; the spec has it widen a numeric field to an
    arbitrary-precision integer, the value unchanged. *)
Definition toBigNumber (n : Z) : BigNumber := n.

Record Creator : Type := mkCreator {
  creator_address : PublicKey;
  creator_verified : bool;
  creator_share : Z
}.

Inductive TokenStandard : Type :=
| NonFungible | FungibleAsset | Fungible | NonFungibleEdition.

Inductive UseMethod : Type := Burn | Multiple | Single.

Inductive CollectionDetailsKind : Type := V1.

(** A parsed JSON document: the properties of the object. *)
Definition JsonMetadata : Type := list (string * Value).

(** *** The decoded on-chain account (the input) *)

Record AccountDataData : Type := mkAccountDataData {
  data_name : string;
  data_symbol : string;
  data_uri : string;
  data_sellerFeeBasisPoints : Z;
  data_creators : Nullable (list Creator)
}.

Record AccountCollection : Type := mkAccountCollection {
  acoll_verified : bool;
  acoll_key : PublicKey
}.

Record AccountCollectionDetails : Type := mkAccountCollectionDetails {
  adet___kind : CollectionDetailsKind;
  adet_size : Z
}.

Record AccountUses : Type := mkAccountUses {
  ause_useMethod : UseMethod;
  ause_remaining : Z;
  ause_total : Z
}.

Record AccountData : Type := mkAccountData {
  acc_updateAuthority : PublicKey;
  acc_mint : PublicKey;
  acc_data : AccountDataData;
  acc_primarySaleHappened : bool;
  acc_isMutable : bool;
  acc_editionNonce : Nullable Z;
  acc_tokenStandard : Nullable TokenStandard;
  acc_collection : Nullable AccountCollection;
  acc_uses : Nullable AccountUses;
  acc_collectionDetails : Nullable AccountCollectionDetails
}.

Record MetadataAccount : Type := mkMetadataAccount {
  account_publicKey : PublicKey;
  account_data : AccountData
}.

(** *** The Metadata model (the output) *)

Record MetadataUses : Type := mkMetadataUses {
  useMethod : UseMethod;
  remaining : BigNumber;
  total : BigNumber
}.

(** The object spread [{...account.data.collection, address: ...}] copies
    [verified] and [key] and adds [address]. *)
Record MetadataParentCollection : Type := mkMetadataParentCollection {
  verified : bool;
  key : PublicKey;
  parent_address : PublicKey
}.

Record MetadataCollectionDetails : Type := mkMetadataCollectionDetails {
  version : CollectionDetailsKind;
  size : BigNumber
}.

Record Metadata : Type := mkMetadata {
  model : string;
  address : Pda;
  mintAddress : PublicKey;
  updateAuthorityAddress : PublicKey;
  json : Nullable JsonMetadata;
  jsonLoaded : bool;
  name : string;
  symbol : string;
  uri : string;
  isMutable : bool;
  primarySaleHappened : bool;
  sellerFeeBasisPoints : Z;
  editionNonce : Nullable Z;
  creators : list Creator;
  tokenStandard : Nullable TokenStandard;
  collection : Nullable MetadataParentCollection;
  collectionDetails : Nullable MetadataCollectionDetails;
  uses : Nullable MetadataUses
}.

(** *** Helpers of '@/utils' *)

Definition NUL : ascii := Ascii.zero.

Definition is_NUL (c : ascii) : bool := Ascii.eqb c NUL.

Definition is_empty (s : string) : bool :=
  match s with EmptyString => true | String _ _ => false end.

(** Modelled from the spec: [removeEmptyChars] of '@/utils' is not in the
    sources at hand; the spec has it strip the trailing null (padding)
    characters of a fixed-width on-chain string field. *)
Fixpoint removeEmptyChars (value : string) : string :=
  match value with
  | EmptyString => EmptyString
  | String c rest =>
      let rest' := removeEmptyChars rest in
      if is_NUL c && is_empty rest' then EmptyString else String c rest'
  end.

(** [k] padding characters *)
Fixpoint padding (k : nat) : string :=
  match k with
  | O => EmptyString
  | S k' => String NUL (padding k')
  end.

(** The last character of the string is a padding character. *)
Fixpoint ends_with_NUL (s : string) : bool :=
  match s with
  | EmptyString => false
  | String c rest => if is_empty rest then is_NUL c else ends_with_NUL rest
  end.

(** Modelled from the spec: [assert] of '@/utils' is not in the sources at
    hand; the spec has a failed assertion raise a type-assertion failure. *)
Definition assert (condition : bool) (message : string) : Completion unit :=
  if condition then Normal tt else Throw (AssertionFailedError message).

(** *** isMetadata, assertMetadata *)

(** [typeof value === 'object' && value.model === 'metadata'] *)
Definition isMetadata (value : Value) : Completion bool :=
  and_then (String.eqb (typeof value) "object")
           (bind (get value "model")
                 (fun m => Normal (strict_eq_string m "metadata"))).

Definition assertMetadata (value : Value) : Completion unit :=
  bind (isMetadata value) (fun b => assert b "Expected Metadata model").

(** *** toMetadata *)

Section ToMetadata.

(** [findMetadataPda] of './pdas': the address derivation, a collaborator. *)
Variable findMetadataPda : PublicKey -> Pda.

(** [json ?? null] for [json : JsonMetadata | null | undefined] *)
Definition json_or_null (json : Optional (Nullable JsonMetadata))
  : Nullable JsonMetadata :=
  match json with
  | Undefined => Null
  | Defined Null => Null
  | Defined (NotNull doc) => NotNull doc
  end.

(** [json !== undefined] *)
Definition json_not_undefined (json : Optional (Nullable JsonMetadata)) : bool :=
  match json with
  | Undefined => false
  | Defined _ => true
  end.

Definition toMetadata (account : MetadataAccount)
                      (json : Optional (Nullable JsonMetadata)) : Metadata :=
  let d := account_data account in
  {| model := "metadata";
     address := findMetadataPda (acc_mint d);
     mintAddress := acc_mint d;
     updateAuthorityAddress := acc_updateAuthority d;
     json := json_or_null json;
     jsonLoaded := json_not_undefined json;
     name := removeEmptyChars (data_name (acc_data d));
     symbol := removeEmptyChars (data_symbol (acc_data d));
     uri := removeEmptyChars (data_uri (acc_data d));
     isMutable := acc_isMutable d;
     primarySaleHappened := acc_primarySaleHappened d;
     sellerFeeBasisPoints := data_sellerFeeBasisPoints (acc_data d);
     editionNonce := acc_editionNonce d;
     creators := nullish_or (data_creators (acc_data d)) [];
     tokenStandard := acc_tokenStandard d;
     collection :=
       match acc_collection d with
       | NotNull c =>
           NotNull {| verified := acoll_verified c;
                      key := acoll_key c;
                      parent_address := acoll_key c |}
       | Null => Null
       end;
     collectionDetails :=
       match acc_collectionDetails d with
       | NotNull cd =>
           NotNull {| version := adet___kind cd;
                      size := toBigNumber (adet_size cd) |}
       | Null => Null
       end;
     uses :=
       match acc_uses d with
       | NotNull u =>
           NotNull {| useMethod := ause_useMethod u;
                      remaining := toBigNumber (ause_remaining u);
                      total := toBigNumber (ause_total u) |}
       | Null => Null
       end |}.

End ToMetadata.

(** *** A Metadata record as the JavaScript object it is *)

Definition value_of_nullable {T} (f : T -> Value) (x : Nullable T) : Value :=
  match x with Null => VNull | NotNull v => f v end.

Definition value_of_PublicKey (k : PublicKey) : Value :=
  VObject [("_bn", VString k)].

Definition value_of_Pda (p : Pda) : Value :=
  VObject [("_bn", VString (pda_key p)); ("bump", VNumber (pda_bump p))].

Definition value_of_Creator (c : Creator) : Value :=
  VObject [("address", value_of_PublicKey (creator_address c));
           ("verified", VBoolean (creator_verified c));
           ("share", VNumber (creator_share c))].

Definition value_of_TokenStandard (t : TokenStandard) : Value :=
  VNumber match t with
          | NonFungible => 0 | FungibleAsset => 1
          | Fungible => 2 | NonFungibleEdition => 3
          end.

Definition value_of_UseMethod (u : UseMethod) : Value :=
  VNumber match u with Burn => 0 | Multiple => 1 | Single => 2 end.

Definition value_of_Metadata (m : Metadata) : Value :=
  VObject
    [("model", VString (model m));
     ("address", value_of_Pda (address m));
     ("mintAddress", value_of_PublicKey (mintAddress m));
     ("updateAuthorityAddress", value_of_PublicKey (updateAuthorityAddress m));
     ("json", value_of_nullable VObject (json m));
     ("jsonLoaded", VBoolean (jsonLoaded m));
     ("name", VString (name m));
     ("symbol", VString (symbol m));
     ("uri", VString (uri m));
     ("isMutable", VBoolean (isMutable m));
     ("primarySaleHappened", VBoolean (primarySaleHappened m));
     ("sellerFeeBasisPoints", VNumber (sellerFeeBasisPoints m));
     ("editionNonce", value_of_nullable VNumber (editionNonce m));
     ("creators", VArray (map value_of_Creator (creators m)) []);
     ("tokenStandard", value_of_nullable value_of_TokenStandard (tokenStandard m));
     ("collection",
      value_of_nullable
        (fun c => VObject [("verified", VBoolean (verified c));
                           ("key", value_of_PublicKey (key c));
                           ("address", value_of_PublicKey (parent_address c))])
        (collection m));
     ("collectionDetails",
      value_of_nullable
        (fun c => VObject [("version", VString "V1");
                           ("size", VNumber (size c))])
        (collectionDetails m));
     ("uses",
      value_of_nullable
        (fun u => VObject [("useMethod", value_of_UseMethod (useMethod u));
                           ("remaining", VNumber (remaining u));
                           ("total", VNumber (total u))])
        (uses m))].

(** A sample account, with padded strings as they come off the chain. *)
Definition sample_account : MetadataAccount :=
  {| account_publicKey := "MetaKey";
     account_data :=
       {| acc_updateAuthority := "Authority";
          acc_mint := "Mint";
          acc_data :=
            {| data_name := String.append "MyNFT" (String NUL (String NUL (String NUL EmptyString)));
               data_symbol := String.append "MNFT" (String NUL EmptyString);
               data_uri := "https://arweave.net/abc";
               data_sellerFeeBasisPoints := 250;
               data_creators := Null |};
          acc_primarySaleHappened := false;
          acc_isMutable := true;
          acc_editionNonce := NotNull 255;
          acc_tokenStandard := NotNull NonFungible;
          acc_collection := NotNull {| acoll_verified := true; acoll_key := "Coll" |};
          acc_uses := Null;
          acc_collectionDetails := NotNull {| adet___kind := V1; adet_size := 42 |} |} |}.

Definition sample_pda (mint : PublicKey) : Pda :=
  {| pda_key := String.append "pda:" mint; pda_bump := 254 |}.

End Metadata.

(* ===================================================================== *)
(** ** src/plugins/bundlrStorage/BundlrStorageDriver.ts *)
(* ===================================================================== *)

Module Bundlr.
Import Js.

(** *** Numbers: bignumber.js and SolAmount *)

(** A [BigNumber] of bignumber.js is an exact decimal number; the driver
    adds nothing to its arithmetic, which is exact for [minus] and
    [multipliedBy].  It is embedded as a rational (NaN and the infinities
    apart, which no lamport amount is). *)
Definition BigNumber : Type := Q.

Definition isGreaterThan (a b : BigNumber) : bool := negb (Qle_bool a b).
Definition isLessThan (a b : BigNumber) : bool := negb (Qle_bool b a).
Definition minus (a b : BigNumber) : BigNumber := (a - b)%Q.
Definition multipliedBy (a b : BigNumber) : BigNumber := (a * b)%Q.

(** Rounding to the nearest integer, a tie going away from zero: the
    rounding mode ROUND_HALF_UP, which is the one bignumber.js starts with. *)
Definition round_half_up (q : Q) : Z :=
  if Qle_bool 0 q then Qfloor (q + (1 # 2)) else - Qfloor (- q + (1 # 2)).

(** [x.decimalPlaces(0)] *)
Definition decimalPlaces0 (x : BigNumber) : BigNumber := inject_Z (round_half_up x).

(** Modelled from the spec: [SolAmount] of '@/utils' is not in the sources
    at hand; the spec has it an arbitrary-precision amount of lamports with
    comparison and subtraction. *)
Record SolAmount : Type := mkSolAmount { lamports : BigNumber }.

Definition fromLamports (l : BigNumber) : SolAmount := {| lamports := l |}.
Definition getLamports (a : SolAmount) : BigNumber := lamports a.
Definition amount_isLessThan (a b : SolAmount) : bool := isLessThan (lamports a) (lamports b).
Definition amount_minus (a b : SolAmount) : SolAmount :=
  {| lamports := minus (lamports a) (lamports b) |}.

(** *** Files *)

Record Tag : Type := mkTag { tag_name : string; tag_value : string }.

(** Modelled from the spec: [MetaplexFile] of '@/types' is not in the
    sources at hand; the spec has a file be an opaque byte payload with a
    content type, uploaded with its content-type tag. *)
Record MetaplexFile : Type := mkMetaplexFile {
  buffer : list Byte.byte;
  contentType : Nullable string;
  tags : list Tag
}.

(** [file.getBytes()], the byte length of the payload *)
Definition file_getBytes (f : MetaplexFile) : Z := Z.of_nat (List.length (buffer f)).

(** [file.toBuffer()] *)
Definition toBuffer (f : MetaplexFile) : list Byte.byte := buffer f.

(** [file.getTagsWithContentType()] *)
Definition getTagsWithContentType (f : MetaplexFile) : list Tag :=
  match contentType f with
  | NotNull ct => {| tag_name := "Content-Type"; tag_value := ct |} :: tags f
  | Null => tags f
  end.

(** [MetaplexFile[] | number] *)
Inductive FilesOrBytes : Type :=
| Files : list MetaplexFile -> FilesOrBytes
| Bytes : Z -> FilesOrBytes.

(** *** The driver's fields *)

Inductive IdentityDriver : Type :=
| KeypairIdentityDriver (secretKey : string)
| WalletAdapterIdentityDriver (wallet : string).

Record Metaplex : Type := mkMetaplex {
  rpcEndpoint : string;
  identity : IdentityDriver
}.

Record BundlrOptions : Type := mkBundlrOptions {
  address : Optional string;
  timeout : Optional Z;
  providerUrl : Optional string;
  priceMultiplier : Optional Q;
  opt_withdrawAfterUploading : Optional bool
}.

(** The options object handed to the constructor, by its own properties:
    the spread [...options] copies a property that is present, also when
    its value is [undefined]. *)
Record OptionsObject : Type := mkOptionsObject {
  own_address : Property string;
  own_timeout : Property Z;
  own_providerUrl : Property string;
  own_priceMultiplier : Property Q;
  own_withdrawAfterUploading : Property bool
}.

(** [{}], the default of the constructor *)
Definition no_options : OptionsObject :=
  {| own_address := Absent; own_timeout := Absent; own_providerUrl := Absent;
     own_priceMultiplier := Absent; own_withdrawAfterUploading := Absent |}.

(** The options a client is constructed with. *)
Record ClientOptions : Type := mkClientOptions {
  client_timeout : Optional Z;
  client_providerUrl : Optional string
}.

(** The two client variants of '@bundlr-network/client'. *)
Inductive BundlrHandle : Type :=
| NodeBundlr (addr currency : string) (secretKey : string) (opts : ClientOptions)
| WebBundlr (addr currency : string) (signer : IdentityDriver) (opts : ClientOptions).

(** [bundlr instanceof WebBundlr] *)
Definition instanceof_WebBundlr (b : BundlrHandle) : bool :=
  match b with WebBundlr _ _ _ _ => true | NodeBundlr _ _ _ _ => false end.

Record Driver : Type := mkDriver {
  metaplex : Metaplex;
  bundlr : option BundlrHandle;
  options : BundlrOptions;
  _withdrawAfterUploading : bool
}.

(** The constructor.  [this.options] is
    [{ providerUrl: rpcEndpoint, ...options }]: the RPC endpoint stands for
    [providerUrl] only when the options object has no such property; a
    property that is present is copied over it, [undefined] included.  The
    flag is [options.withdrawAfterUploading ?? true]; no client is created. *)
Definition new_BundlrStorageDriver (mx : Metaplex) (opts : OptionsObject) : Driver :=
  {| metaplex := mx;
     bundlr := None;
     options :=
       {| address := read_property (own_address opts);
          timeout := read_property (own_timeout opts);
          providerUrl :=
            match own_providerUrl opts with
            | Absent => Defined (rpcEndpoint mx)
            | Present v => v
            end;
          priceMultiplier := read_property (own_priceMultiplier opts);
          opt_withdrawAfterUploading := read_property (own_withdrawAfterUploading opts) |};
     _withdrawAfterUploading :=
       undefined_or (read_property (own_withdrawAfterUploading opts)) true |}.

(** *** Errors *)

(** What the Bundlr client throws. *)
Definition ClientError : Type := string.

Inductive DriverError : Type :=
| AssetUploadFailedError (status : Z)
| BundlrWithdrawError (status : Z)
| FailedToConnectToBundlrAddressError (addr : string) (cause : ClientError)
| FailedToInitializeBundlrError (cause : ClientError)
| ClientFailure (cause : ClientError).

Inductive Res (A : Type) : Type :=
| Ok : A -> Res A
| Fail : DriverError -> Res A.
Arguments Ok {A} _.
Arguments Fail {A} _.

(** *** The Bundlr client, an interface *)

Inductive Reply (A : Type) : Type :=
| Returned : A -> Reply A
| Threw : ClientError -> Reply A.
Arguments Returned {A} _.
Arguments Threw {A} _.

(** [{ status, data: { id } }] *)
Record UploadResponse : Type := mkUploadResponse {
  upload_status : Z;
  upload_id : string
}.

(** The calls the driver makes to the client, for the log. *)
Inductive Call : Type :=
| NewBundlr (b : BundlrHandle)
| GetBundlerAddress (b : BundlrHandle) (currency : string)
| Ready (b : BundlrHandle)
| GetLoadedBalance (b : BundlrHandle)
| GetPrice (b : BundlrHandle) (bytes : Z)
| FundCall (b : BundlrHandle) (amount : BigNumber)
| WithdrawBalance (b : BundlrHandle) (amount : BigNumber)
| Upload (b : BundlrHandle) (data : list Byte.byte) (tgs : list Tag).

(** A storage network with state [W]: each operation of the client answers
    or throws and moves the network on.  An upload also says when its
    answer arrives, which decides the race of [Promise.all]. *)
Class BundlrClient (W : Type) : Type := {
  client_getBundlerAddress : BundlrHandle -> string -> W -> Reply string * W;
  client_ready : BundlrHandle -> W -> Reply unit * W;
  client_getLoadedBalance : BundlrHandle -> W -> Reply BigNumber * W;
  client_getPrice : BundlrHandle -> Z -> W -> Reply BigNumber * W;
  client_fund : BundlrHandle -> BigNumber -> W -> Reply unit * W;
  client_withdrawBalance : BundlrHandle -> BigNumber -> W -> Reply Z * W;
  client_upload : BundlrHandle -> list Byte.byte -> list Tag -> W
                  -> (nat * Reply UploadResponse) * W
}.

(** *** The monad of the driver's methods *)

Record State (W : Type) : Type := mkState {
  driver : Driver;
  network : W;
  calls : list Call
}.
Arguments mkState {W} _ _ _.
Arguments driver {W} _.
Arguments network {W} _.
Arguments calls {W} _.

Definition M (W A : Type) : Type := State W -> Res A * State W.

Definition ret {W A} (a : A) : M W A := fun s => (Ok a, s).

Definition throw {W A} (e : DriverError) : M W A := fun s => (Fail e, s).

Definition mbind {W A B} (m : M W A) (k : A -> M W B) : M W B :=
  fun s => match m s with
           | (Ok a, s') => k a s'
           | (Fail e, s') => (Fail e, s')
           end.

(** [try { m } catch (error) { throw wrap(error) }] around a client call *)
Definition rethrow {W A} (m : M W A) (wrap : ClientError -> DriverError) : M W A :=
  fun s => match m s with
           | (Fail (ClientFailure e), s') => (Fail (wrap e), s')
           | r => r
           end.

Declare Scope driver_scope.
Delimit Scope driver_scope with driver.
Notation "x <- m ;; k" := (mbind m (fun x => k))
  (at level 61, m at next level, right associativity) : driver_scope.
Notation "m ;;; k" := (mbind m (fun _ => k))
  (at level 61, right associativity) : driver_scope.

Definition log_call {W} (c : Call) (w : W) (s : State W) : State W :=
  {| driver := driver s; network := w; calls := calls s ++ [c] |}.

(** A call to the client: logged, the network moved on, a throw of the
    client propagated as it is. *)
Definition invoke {W A} (c : Call) (op : W -> Reply A * W) : M W A :=
  fun s => let (r, w) := op (network s) in
           (match r with
            | Returned a => Ok a
            | Threw e => Fail (ClientFailure e)
            end, log_call c w s).

Definition get_driver {W} : M W Driver := fun s => (Ok (driver s), s).

(** The state after [this.bundlr = b] *)
Definition store_bundlr {W} (b : BundlrHandle) (s : State W) : State W :=
  {| driver := {| metaplex := metaplex (driver s);
                  bundlr := Some b;
                  options := options (driver s);
                  _withdrawAfterUploading := _withdrawAfterUploading (driver s) |};
     network := network s; calls := calls s |}.

Definition set_bundlr {W} (b : BundlrHandle) : M W unit :=
  fun s => (Ok tt, store_bundlr b s).

(** [this._withdrawAfterUploading = flag] *)
Definition set_withdrawAfterUploading {W} (flag : bool) : M W unit :=
  fun s => (Ok tt,
            {| driver := {| metaplex := metaplex (driver s);
                            bundlr := bundlr (driver s);
                            options := options (driver s);
                            _withdrawAfterUploading := flag |};
               network := network s; calls := calls s |}).

(** The amounts of the withdrawals in a log of calls, in order. *)
Fixpoint withdrawals (l : list Call) : list BigNumber :=
  match l with
  | [] => []
  | WithdrawBalance _ amount :: rest => amount :: withdrawals rest
  | _ :: rest => withdrawals rest
  end.

(** The calls of a log that set up a client: a construction, a
    reachability check or a readiness handshake. *)
Definition is_init_call (c : Call) : bool :=
  match c with
  | NewBundlr _ | GetBundlerAddress _ _ | Ready _ => true
  | _ => false
  end.

(** *** Promises *)

(** A settled promise: when it settled and how. *)
Record Promise (A : Type) : Type := mkPromise {
  settledAt : nat;
  outcome : Res A
}.
Arguments mkPromise {A} _ _.
Arguments settledAt {A} _.
Arguments outcome {A} _.

(** The rejection that comes first in time (of two at the same time, the
    one listed first). *)
Fixpoint first_rejection {A} (ps : list (Promise A)) : option (nat * DriverError) :=
  match ps with
  | [] => None
  | p :: rest =>
      match outcome p with
      | Ok _ => first_rejection rest
      | Fail e =>
          match first_rejection rest with
          | Some (t', e') =>
              if (settledAt p <=? t')%nat then Some (settledAt p, e) else Some (t', e')
          | None => Some (settledAt p, e)
          end
      end
  end.

Fixpoint fulfilled_values {A} (ps : list (Promise A)) : list A :=
  match ps with
  | [] => []
  | p :: rest =>
      match outcome p with
      | Ok a => a :: fulfilled_values rest
      | Fail _ => fulfilled_values rest
      end
  end.

(** [await Promise.all(promises)]: rejected with the reason of the first
    promise to reject, fulfilled with the values in the order of the
    promises otherwise. *)
Definition Promise_all {A} (ps : list (Promise A)) : Res (list A) :=
  match first_rejection ps with
  | Some (_, e) => Fail e
  | None => Ok (fulfilled_values ps)
  end.

(** *** The methods of BundlrStorageDriver *)

Section Methods.
Context {W : Type} `{BundlrClient W}.
Local Open Scope driver_scope.

(** [new NodeBundlr(...)] or [new WebBundlr(...)] *)
Definition new_client (b : BundlrHandle) : M W unit :=
  fun s => (Ok tt, log_call (NewBundlr b) (network s) s).

Definition currency : string := "solana".

(** [this.options?.address ?? 'https://node1.bundlr.network'] *)
Definition bundlr_address (d : Driver) : string :=
  undefined_or (address (options d)) "https://node1.bundlr.network".

(** The client [getBundlr] constructs: the direct-signing variant for a
    keypair identity, the delegated-signing variant for any other. *)
Definition construct_client (d : Driver) : BundlrHandle :=
  let addr := bundlr_address d in
  let opts := {| client_timeout := timeout (options d);
                 client_providerUrl := providerUrl (options d) |} in
  match identity (metaplex d) with
  | KeypairIdentityDriver secretKey => NodeBundlr addr currency secretKey opts
  | other => WebBundlr addr currency other opts
  end.

Definition getBundlr : M W BundlrHandle :=
  d <- get_driver ;;
  match bundlr d with
  | Some b => ret b
  | None =>
      let addr := bundlr_address d in
      let b := construct_client d in
      new_client b ;;;
      rethrow (invoke (GetBundlerAddress b currency) (client_getBundlerAddress b currency))
              (FailedToConnectToBundlrAddressError addr) ;;;
      (if instanceof_WebBundlr b
       then rethrow (invoke (Ready b) (client_ready b)) FailedToInitializeBundlrError
       else ret tt) ;;;
      set_bundlr b ;;;
      ret b
  end.

Definition getBalance : M W SolAmount :=
  b <- getBundlr ;;
  balance <- invoke (GetLoadedBalance b) (client_getLoadedBalance b) ;;
  ret (fromLamports balance).

Definition getBytes (filesOrBytes : FilesOrBytes) : Z :=
  match filesOrBytes with
  | Bytes n => n
  | Files files => fold_left (fun total file => total + file_getBytes file) files 0
  end.

Definition getMultipliedPrice (bytes : Z) : M W BigNumber :=
  b <- getBundlr ;;
  price <- invoke (GetPrice b bytes) (client_getPrice b bytes) ;;
  d <- get_driver ;;
  ret (decimalPlaces0
         (multipliedBy price (undefined_or (priceMultiplier (options d)) (3 # 2)))).

Definition getPrice (files : list MetaplexFile) : M W SolAmount :=
  price <- getMultipliedPrice (getBytes (Files files)) ;;
  ret (fromLamports price).

Definition fundingNeeded (filesOrBytes : FilesOrBytes) (skipBalanceCheck : bool)
  : M W BigNumber :=
  price <- getMultipliedPrice (getBytes filesOrBytes) ;;
  if skipBalanceCheck then ret price
  else
    b <- getBundlr ;;
    balance <- invoke (GetLoadedBalance b) (client_getLoadedBalance b) ;;
    ret (if isGreaterThan price balance then minus price balance else 0%Q).

Definition needsFunding (filesOrBytes : FilesOrBytes) (skipBalanceCheck : bool)
  : M W bool :=
  needed <- fundingNeeded filesOrBytes skipBalanceCheck ;;
  ret (isGreaterThan needed 0%Q).

Definition fund (filesOrBytes : FilesOrBytes) (skipBalanceCheck : bool) : M W unit :=
  b <- getBundlr ;;
  needed <- fundingNeeded filesOrBytes skipBalanceCheck ;;
  if negb (isGreaterThan needed 0%Q) then ret tt
  else invoke (FundCall b needed) (client_fund b needed).

Definition withdraw (amount : BigNumber) : M W unit :=
  b <- getBundlr ;;
  status <- invoke (WithdrawBalance b amount) (client_withdrawBalance b amount) ;;
  if 300 <=? status then throw (BundlrWithdrawError status) else ret tt.

Definition minimumBalance : SolAmount := fromLamports (inject_Z 5000).

Definition withdrawAll : M W unit :=
  balance <- getBalance ;;
  if amount_isLessThan balance minimumBalance then ret tt
  else withdraw (getLamports (amount_minus balance minimumBalance)).

Definition shouldWithdrawAfterUploading : M W bool :=
  d <- get_driver ;; ret (_withdrawAfterUploading d).

Definition withdrawAfterUploading : M W unit := set_withdrawAfterUploading true.

Definition dontWithdrawAfterUploading : M W unit := set_withdrawAfterUploading false.

Definition gateway : string := "https://arweave.net/".

(** The rest of [uploadFile] once the answer of the client is there. *)
Definition uploadFile_result (r : Reply UploadResponse) : Res string :=
  match r with
  | Threw e => Fail (ClientFailure e)
  | Returned resp =>
      if 300 <=? upload_status resp
      then Fail (AssetUploadFailedError (upload_status resp))
      else Ok (gateway ++ upload_id resp)
  end.

(** The promise of an upload, from the answer of the network and the
    moment it arrives. *)
Definition promise_of_reply (r : nat * Reply UploadResponse) : Promise string :=
  mkPromise (fst r) (uploadFile_result (snd r)).

(** The network answered the upload with a status below 300. *)
Definition accepted (r : nat * Reply UploadResponse) : bool :=
  match snd r with
  | Returned resp => upload_status resp <? 300
  | Threw _ => false
  end.

(** [uri] is the gateway prefix followed by the identifier the network
    returned in the answer [r]. *)
Definition uri_for (r : nat * Reply UploadResponse) (uri : string) : Prop :=
  exists resp, snd r = Returned resp /\ uri = gateway ++ upload_id resp.

(** The promise a call [this.uploadFile(file)] returns, settled. *)
Definition uploadFile_promise (file : MetaplexFile) : State W -> Promise string * State W :=
  fun s =>
    match getBundlr s with
    | (Fail e, s1) => (mkPromise 0%nat (Fail e), s1)
    | (Ok b, s1) =>
        let data := toBuffer file in
        let tgs := getTagsWithContentType file in
        let (r, w) := client_upload b data tgs (network s1) in
        (promise_of_reply r, log_call (Upload b data tgs) w s1)
    end.

(** [await this.uploadFile(file)] *)
Definition uploadFile (file : MetaplexFile) : M W string :=
  fun s => let (p, s') := uploadFile_promise file s in (outcome p, s').

(** [files.map((file) => this.uploadFile(file))]: every upload is started,
    in the order of the files. *)
Fixpoint uploadFiles (files : list MetaplexFile) : State W -> list (Promise string) * State W :=
  fun s =>
    match files with
    | [] => ([], s)
    | file :: rest =>
        let (p, s1) := uploadFile_promise file s in
        let (ps, s2) := uploadFiles rest s1 in
        (p :: ps, s2)
    end.

Definition uploadAll (files : list MetaplexFile) : M W (list string) :=
  fund (Files files) false ;;;
  promises <- (fun s => let (ps, s') := uploadFiles files s in (Ok ps, s')) ;;
  uris <- (fun s => (Promise_all promises, s)) ;;
  flag <- shouldWithdrawAfterUploading ;;
  (if flag then withdrawAll else ret tt) ;;;
  ret uris.

(** [const [uri] = await this.uploadAll([file])]: the list has one URI. *)
Definition upload (file : MetaplexFile) : M W string :=
  uris <- uploadAll [file] ;;
  ret (hd "" uris).

(** The answers of the network to the uploads of [files] by the client
    [b], in the order of the files. *)
Fixpoint upload_replies (b : BundlrHandle) (files : list MetaplexFile) (w : W)
  : list (nat * Reply UploadResponse) * W :=
  match files with
  | [] => ([], w)
  | file :: rest =>
      let (r, w1) := client_upload b (toBuffer file) (getTagsWithContentType file) w in
      let (rs, w2) := upload_replies b rest w1 in
      (r :: rs, w2)
  end.

(** The call that uploads [file] through the client [b]. *)
Definition upload_call (b : BundlrHandle) (file : MetaplexFile) : Call :=
  Upload b (toBuffer file) (getTagsWithContentType file).

(** The total size of a list of files. *)
Fixpoint total_bytes (files : list MetaplexFile) : Z :=
  match files with
  | [] => 0
  | file :: rest => file_getBytes file + total_bytes rest
  end.

(** *** A driver in use: any sequence of calls to its public methods *)

Inductive Op : Type :=
| OpGetBalance
| OpGetPrice (files : list MetaplexFile)
| OpUpload (file : MetaplexFile)
| OpUploadAll (files : list MetaplexFile)
| OpFundingNeeded (filesOrBytes : FilesOrBytes) (skipBalanceCheck : bool)
| OpNeedsFunding (filesOrBytes : FilesOrBytes) (skipBalanceCheck : bool)
| OpFund (filesOrBytes : FilesOrBytes) (skipBalanceCheck : bool)
| OpWithdrawAll
| OpWithdraw (amount : BigNumber)
| OpShouldWithdrawAfterUploading
| OpWithdrawAfterUploading
| OpDontWithdrawAfterUploading
| OpGetBundlr
| OpUseIdentity (id : IdentityDriver).

(** [metaplex.use(identity)], from outside the driver *)
Definition use_identity (id : IdentityDriver) : M W unit :=
  fun s => (Ok tt,
            {| driver := {| metaplex := {| rpcEndpoint := rpcEndpoint (metaplex (driver s));
                                           identity := id |};
                            bundlr := bundlr (driver s);
                            options := options (driver s);
                            _withdrawAfterUploading := _withdrawAfterUploading (driver s) |};
               network := network s; calls := calls s |}).

(** The state a call leaves, whether it returned or threw.  The method is
    run to its end: nothing else runs while it awaits.  Calls of
    [getBundlr] that overlap are taken step by step further down. *)
Definition run_op (op : Op) (s : State W) : State W :=
  match op with
  | OpGetBalance => snd (getBalance s)
  | OpGetPrice files => snd (getPrice files s)
  | OpUpload file => snd (upload file s)
  | OpUploadAll files => snd (uploadAll files s)
  | OpFundingNeeded fb skip => snd (fundingNeeded fb skip s)
  | OpNeedsFunding fb skip => snd (needsFunding fb skip s)
  | OpFund fb skip => snd (fund fb skip s)
  | OpWithdrawAll => snd (withdrawAll s)
  | OpWithdraw amount => snd (withdraw amount s)
  | OpShouldWithdrawAfterUploading => snd (shouldWithdrawAfterUploading s)
  | OpWithdrawAfterUploading => snd (withdrawAfterUploading s)
  | OpDontWithdrawAfterUploading => snd (dontWithdrawAfterUploading s)
  | OpGetBundlr => snd (getBundlr s)
  | OpUseIdentity id => snd (use_identity id s)
  end.

Definition run_ops (ops : list Op) (s : State W) : State W :=
  fold_left (fun st op => run_op op st) ops s.

(** A method keeps the client handle [b] when it leaves it in place,
    whether it returns or throws. *)
Definition keeps (b : BundlrHandle) {A} (m : M W A) : Prop :=
  forall s, bundlr (driver s) = Some b -> bundlr (driver (snd (m s))) = Some b.

End Methods.

(** *** A storage network to run the driver on *)

(** A small network: a balance, a price per byte, the status it gives a
    withdrawal, and the answers it will give the next uploads, with the
    moment each arrives. *)
Record SimNet : Type := mkSimNet {
  sim_reachable : bool;
  sim_wallet_ready : bool;
  sim_balance : Q;
  sim_lamports_per_byte : Q;
  sim_withdraw_status : Z;
  sim_uploads : list (nat * Reply UploadResponse)
}.

Definition sim_with_balance (w : SimNet) (bal : Q) : SimNet :=
  {| sim_reachable := sim_reachable w;
     sim_wallet_ready := sim_wallet_ready w;
     sim_balance := bal;
     sim_lamports_per_byte := sim_lamports_per_byte w;
     sim_withdraw_status := sim_withdraw_status w;
     sim_uploads := sim_uploads w |}.

Definition sim_with_uploads (w : SimNet) (ups : list (nat * Reply UploadResponse)) : SimNet :=
  {| sim_reachable := sim_reachable w;
     sim_wallet_ready := sim_wallet_ready w;
     sim_balance := sim_balance w;
     sim_lamports_per_byte := sim_lamports_per_byte w;
     sim_withdraw_status := sim_withdraw_status w;
     sim_uploads := ups |}.

#[global] Instance SimClient : BundlrClient SimNet := {|
  client_getBundlerAddress := fun _ _ w =>
    (if sim_reachable w then Returned "bundler-address" else Threw "ECONNREFUSED", w);
  client_ready := fun _ w =>
    (if sim_wallet_ready w then Returned tt else Threw "wallet not connected", w);
  client_getLoadedBalance := fun _ w => (Returned (sim_balance w), w);
  client_getPrice := fun _ bytes w =>
    (Returned (inject_Z bytes * sim_lamports_per_byte w)%Q, w);
  client_fund := fun _ amount w =>
    (Returned tt, sim_with_balance w (sim_balance w + amount)%Q);
  client_withdrawBalance := fun _ amount w =>
    (Returned (sim_withdraw_status w), sim_with_balance w (sim_balance w - amount)%Q);
  client_upload := fun _ _ _ w =>
    match sim_uploads w with
    | [] => ((0%nat, Returned {| upload_status := 200; upload_id := "tx" |}), w)
    | r :: rest => (r, sim_with_uploads w rest)
    end
|}.

Definition sim_net (bal : Q) (ups : list (nat * Reply UploadResponse)) : SimNet :=
  {| sim_reachable := true; sim_wallet_ready := true; sim_balance := bal;
     sim_lamports_per_byte := 1; sim_withdraw_status := 200; sim_uploads := ups |}.

Definition sim_keypair : Metaplex :=
  {| rpcEndpoint := "https://api.devnet.solana.com";
     identity := KeypairIdentityDriver "secret" |}.

Definition sim_wallet : Metaplex :=
  {| rpcEndpoint := "https://api.devnet.solana.com";
     identity := WalletAdapterIdentityDriver "phantom" |}.

(** A fresh driver on a network. *)
Definition sim_state (mx : Metaplex) (w : SimNet) : State SimNet :=
  {| driver := new_BundlrStorageDriver mx no_options; network := w; calls := [] |}.

Definition sim_accept (t : nat) (id : string) : nat * Reply UploadResponse :=
  (t, Returned {| upload_status := 200; upload_id := id |}).

Definition sim_refuse (t : nat) (status : Z) : nat * Reply UploadResponse :=
  (t, Returned {| upload_status := status; upload_id := "" |}).

Definition sim_file (n : nat) : MetaplexFile :=
  {| buffer := repeat Byte.x00 n; contentType := NotNull "image/png"; tags := [] |}.

(** A node that does not answer, and a wallet that is not connected. *)
Definition sim_down : SimNet :=
  {| sim_reachable := false; sim_wallet_ready := true; sim_balance := 0;
     sim_lamports_per_byte := 1; sim_withdraw_status := 200; sim_uploads := [] |}.

Definition sim_locked : SimNet :=
  {| sim_reachable := true; sim_wallet_ready := false; sim_balance := 0;
     sim_lamports_per_byte := 1; sim_withdraw_status := 200; sim_uploads := [] |}.

(** The clients the driver constructs for the two identities. *)
Definition node_client : BundlrHandle :=
  construct_client (new_BundlrStorageDriver sim_keypair no_options).


(** A batch of two files, answers that accept both, answers that refuse
    the second, and a driver in use. *)
Definition sim_batch : list MetaplexFile := [sim_file 10; sim_file 20].

Definition sim_accepting : list (nat * Reply UploadResponse) :=
  [sim_accept 5 "a"; sim_accept 2 "b"].


Definition sim_session : list Op :=
  [OpUploadAll [sim_file 10]; OpWithdrawAll;
   OpUseIdentity (KeypairIdentityDriver "secret");
   OpDontWithdrawAfterUploading; OpUpload (sim_file 5)].

(** *** What a method leaves alone *)

(** A method frames [f] when [f] of the state is the same after it,
    whether it returned or threw. *)
Definition frames {W X A} (f : State W -> X) (m : M W A) : Prop :=
  forall s, f (snd (m s)) = f s.

Definition is_withdrawal (c : Call) : bool :=
  match c with
  | WithdrawBalance _ _ => true
  | _ => false
  end.

(** The amounts of the deposits in a log of calls, in order. *)
Fixpoint deposits (l : list Call) : list BigNumber :=
  match l with
  | [] => []
  | FundCall _ amount :: rest => amount :: deposits rest
  | _ :: rest => deposits rest
  end.

(** The flag after a call, from the flag before it: only the two toggles
    write it. *)
Definition toggled (op : Op) (flag : bool) : bool :=
  match op with
  | OpWithdrawAfterUploading => true
  | OpDontWithdrawAfterUploading => false
  | _ => flag
  end.

Definition flag_after (ops : list Op) (flag : bool) : bool :=
  fold_left (fun f op => toggled op f) ops flag.

(** What a client was constructed with. *)
Definition handle_address (b : BundlrHandle) : string :=
  match b with NodeBundlr a _ _ _ | WebBundlr a _ _ _ => a end.

Definition handle_currency (b : BundlrHandle) : string :=
  match b with NodeBundlr _ c _ _ | WebBundlr _ c _ _ => c end.

Definition handle_options (b : BundlrHandle) : ClientOptions :=
  match b with NodeBundlr _ _ _ o | WebBundlr _ _ _ o => o end.

(** A network that refuses withdrawals with the status 500. *)
Definition sim_stingy (bal : Q) (ups : list (nat * Reply UploadResponse)) : SimNet :=
  {| sim_reachable := true; sim_wallet_ready := true; sim_balance := bal;
     sim_lamports_per_byte := 1; sim_withdraw_status := 500; sim_uploads := ups |}.

(** Options that name a node, a provider and a multiplier. *)
Definition sim_options : OptionsObject :=
  {| own_address := Present (Defined "https://devnet.bundlr.network");
     own_timeout := Present (Defined 60000);
     own_providerUrl := Present (Defined "https://rpc.example");
     own_priceMultiplier := Present (Defined (2 # 1));
     own_withdrawAfterUploading := Present (Defined false) |}.

(** Options that hold [providerUrl: undefined] and nothing else. *)
Definition sim_options_no_provider : OptionsObject :=
  {| own_address := Absent; own_timeout := Absent;
     own_providerUrl := Present Undefined;
     own_priceMultiplier := Absent; own_withdrawAfterUploading := Absent |}.

(** *** Calls of getBundlr that overlap *)

(** [getBundlr] is asynchronous: it runs up to an [await], and goes on when
    the answer awaited is there; between the two, other calls run.  It
    awaits twice: the answer of [getBundlerAddress] and, for a WebBundlr,
    that of [ready]. *)

Section Overlap.
Context {W : Type} `{BundlrClient W}.











End Overlap.




End Bundlr.

(* ===================================================================== *)
(** * Properties of the Metadata model *)
(* ===================================================================== *)

Module MetadataSpec.
Import Js Metadata.

Section Mapper.
Variable findMetadataPda : PublicKey -> Pda.

Lemma removeEmptyChars_padding : forall k, removeEmptyChars (padding k) = EmptyString.
Proof.
  induction k as [|k IH]; simpl; [reflexivity|].
  rewrite IH. reflexivity.
Qed.

(** The stripped string is the raw string less a run of padding at its end. *)
Lemma removeEmptyChars_prefix :
  forall raw, exists k, raw = removeEmptyChars raw ++ padding k.
Proof.
  induction raw as [|c rest [k IH]]; simpl.
  - exists 0%nat. reflexivity.
  - destruct (is_NUL c) eqn:Ec; simpl.
    + destruct (removeEmptyChars rest) as [|c' r'] eqn:Er; simpl in *.
      * exists (S k). simpl. unfold is_NUL in Ec.
        apply Ascii.eqb_eq in Ec. subst c. rewrite IH at 1. reflexivity.
      * exists k. rewrite IH at 1. reflexivity.
    + exists k. rewrite IH at 1. reflexivity.
Qed.

(** No padding is left at the end of the stripped string. *)
Lemma removeEmptyChars_no_padding :
  forall raw, ends_with_NUL (removeEmptyChars raw) = false.
Proof.
  induction raw as [|c rest IH]; simpl; [reflexivity|].
  destruct (is_NUL c) eqn:Ec; simpl.
  - destruct (removeEmptyChars rest) as [|c' r'] eqn:Er; simpl in *; [reflexivity|].
    exact IH.
  - destruct (removeEmptyChars rest) as [|c' r'] eqn:Er; simpl in *; [exact Ec|].
    exact IH.
Qed.

(** A string with no padding at its end, padded, is given back as it was. *)
Lemma removeEmptyChars_strip :
  forall t k, ends_with_NUL t = false -> removeEmptyChars (t ++ padding k) = t.
Proof.
  induction t as [|c t' IH]; intros k Ht; simpl.
  - apply removeEmptyChars_padding.
  - simpl in Ht. destruct t' as [|c' t'']; simpl in Ht.
    + simpl. rewrite removeEmptyChars_padding. rewrite Ht. reflexivity.
    + rewrite (IH k Ht). simpl. rewrite andb_false_r. reflexivity.
Qed.

(** Off [null], [isMetadata] returns, and returns what the spec says. *)
Lemma isMetadata_not_null :
  forall value, value <> VNull ->
    isMetadata value = Normal (object_with_model value "metadata").
Proof.
  intros value Hv. destruct value; try reflexivity. congruence.
Qed.

(** Off [null], [assertMetadata] raises the assertion failure exactly when
    [isMetadata] returns false. *)
Lemma assertMetadata_not_null :
  forall value, value <> VNull ->
    assertMetadata value =
      if object_with_model value "metadata" then Normal tt
      else Throw (AssertionFailedError "Expected Metadata model").
Proof.
  intros value Hv. unfold assertMetadata.
  rewrite (isMetadata_not_null value Hv). reflexivity.
Qed.

(** C4. With the json argument left out the record has jsonLoaded = false
    and json = null; with a second argument [doc] passed, a document or
    null, it has jsonLoaded = true and json = doc. *)
Theorem toMetadata_json_loaded :
  forall (account : MetadataAccount),
    jsonLoaded (toMetadata findMetadataPda account Undefined) = false /\
    json (toMetadata findMetadataPda account Undefined) = Null /\
    forall doc : Nullable JsonMetadata,
      jsonLoaded (toMetadata findMetadataPda account (Defined doc)) = true /\
      json (toMetadata findMetadataPda account (Defined doc)) = doc.
Proof.
  intro account. repeat split.
  destruct doc; reflexivity.
Qed.

(** C7, at the input where the code departs from it. [isMetadata(null)]
    does not return false: [typeof null] is ['object'], so the property
    [model] of [null] is read and a TypeError is thrown; [assertMetadata(null)]
    throws that TypeError, not the assertion failure. *)
Theorem isMetadata_null_throws :
  isMetadata VNull
    = Throw (TypeError "Cannot read properties of null (reading 'model')") /\
  assertMetadata VNull
    = Throw (TypeError "Cannot read properties of null (reading 'model')") /\
  object_with_model VNull "metadata" = false.
Proof.
  repeat split.
Qed.

(** C9. The name, symbol and uri of the record are the raw strings of the
    account less their trailing padding characters, nothing else changed:
    a raw string that is [t] followed by padding, [t] not ending in a
    padding character, gives [t]; so 'MyNFT\0\0\0' gives 'MyNFT'. *)
Theorem toMetadata_strips_padding :
  forall (account : MetadataAccount) (json : Optional (Nullable JsonMetadata)),
    let raw := acc_data (account_data account) in
    let m := toMetadata findMetadataPda account json in
    (forall t k, ends_with_NUL t = false -> data_name raw = t ++ padding k -> name m = t) /\
    (forall t k, ends_with_NUL t = false -> data_symbol raw = t ++ padding k -> symbol m = t) /\
    (forall t k, ends_with_NUL t = false -> data_uri raw = t ++ padding k -> uri m = t) /\
    removeEmptyChars ("MyNFT" ++ padding 3) = "MyNFT".
Proof.
  intros account json raw m. subst raw m. simpl.
  repeat split; try reflexivity;
    intros t k Ht Hraw; rewrite Hraw; apply removeEmptyChars_strip; exact Ht.
Qed.

(** C10. Whatever the account and the json argument (a document, null, or
    left out), the record has model = 'metadata': [isMetadata] returns true
    on it and [assertMetadata] returns normally. *)
Theorem toMetadata_is_metadata :
  forall (account : MetadataAccount) (json : Optional (Nullable JsonMetadata)),
    let m := toMetadata findMetadataPda account json in
    model m = "metadata" /\
    isMetadata (value_of_Metadata m) = Normal true /\
    assertMetadata (value_of_Metadata m) = Normal tt.
Proof.
  intros account json. repeat split.
Qed.

End Mapper.

Lemma toMetadata_strips_padding_witness :
  ends_with_NUL "MyNFT" = false /\
  data_name (acc_data (account_data sample_account)) = "MyNFT" ++ padding 3 /\
  name (toMetadata sample_pda sample_account Undefined) = "MyNFT".
Proof.
  split; [reflexivity|]. split; [reflexivity|].
  apply (proj1 (toMetadata_strips_padding sample_pda sample_account Undefined)
               "MyNFT" 3%nat); reflexivity.
Defined.

(** ** More of the mapper and the type guard *)

Section MapperFields.
Variable findMetadataPda : PublicKey -> Pda.

(** X15. On a value built of plain data, [isMetadata] throws on [null]
    and on nothing else; on any other value it returns, true when the value
    is an object, or an array, whose [model] property is the string
    'metadata', false otherwise: for [undefined], for a primitive, for a
    function, for an object or an array without [model] or with another
    one. *)
Theorem isMetadata_answer :
  forall value : Value,
    isMetadata value =
      match value with
      | VNull => Throw (TypeError "Cannot read properties of null (reading 'model')")
      | _ => Normal (object_with_model value "metadata")
      end.
Proof.
  intro value. destruct value; reflexivity.
Qed.

Example isMetadata_array_with_model :
  isMetadata (VArray [] [("model", VString "metadata")]) = Normal true /\
  isMetadata (VArray [VString "metadata"] []) = Normal false /\
  isMetadata (VFunction "f") = Normal false /\
  isMetadata (VObject [("model", VString "nft")]) = Normal false.
Proof. repeat split. Qed.

(** X16. In a record the mapper returns, [jsonLoaded] false means [json]
    is null; a [json] that is not null means [jsonLoaded] is true. *)
Theorem toMetadata_json_ignored_is_null :
  forall (account : MetadataAccount) (json : Optional (Nullable JsonMetadata)),
    let m := toMetadata findMetadataPda account json in
    (jsonLoaded m = false -> Metadata.json m = Null) /\
    (Metadata.json m <> Null -> jsonLoaded m = true).
Proof.
  intros account json m. subst m. split.
  - destruct json as [|doc]; simpl; [reflexivity|discriminate].
  - destruct json as [|doc]; simpl; [congruence|reflexivity].
Qed.

(** X17. [creators] of the record is never null: the creators of the
    account in their order, and the empty list when the account has none. *)
Theorem toMetadata_creators_default :
  forall (account : MetadataAccount) (json : Optional (Nullable JsonMetadata)),
    let raw := data_creators (acc_data (account_data account)) in
    let m := toMetadata findMetadataPda account json in
    (raw = Null -> creators m = []) /\
    (forall cs, raw = NotNull cs -> creators m = cs).
Proof.
  intros account json raw m. subst raw m. simpl. split.
  - intro E. rewrite E. reflexivity.
  - intros cs E. rewrite E. reflexivity.
Qed.

(** X18. The optional parts of the record are null exactly when those of
    the account are.  A collection keeps [verified] and has the account's
    [key] as its [address]; collection details have the account's [__kind]
    as [version] and its size; uses keep the use method, with the remaining
    and total counts. *)
Theorem toMetadata_optional_parts :
  forall (account : MetadataAccount) (json : Optional (Nullable JsonMetadata)),
    let d := account_data account in
    let m := toMetadata findMetadataPda account json in
    (collection m = Null <-> acc_collection d = Null) /\
    (collectionDetails m = Null <-> acc_collectionDetails d = Null) /\
    (uses m = Null <-> acc_uses d = Null) /\
    (forall c, acc_collection d = NotNull c ->
       exists pc, collection m = NotNull pc /\
                  parent_address pc = acoll_key c /\
                  verified pc = acoll_verified c) /\
    (forall cd, acc_collectionDetails d = NotNull cd ->
       exists det, collectionDetails m = NotNull det /\
                   version det = adet___kind cd /\
                   size det = toBigNumber (adet_size cd)) /\
    (forall u, acc_uses d = NotNull u ->
       exists mu, uses m = NotNull mu /\
                  useMethod mu = ause_useMethod u /\
                  remaining mu = toBigNumber (ause_remaining u) /\
                  total mu = toBigNumber (ause_total u)).
Proof.
  intros account json d m. subst d m. simpl.
  destruct (acc_collection (account_data account)) as [|c];
    destruct (acc_collectionDetails (account_data account)) as [|cd];
    destruct (acc_uses (account_data account)) as [|u];
    repeat split; intros; try discriminate; try reflexivity;
    match goal with
    | E : NotNull _ = NotNull _ |- _ =>
        injection E as <-; eexists; repeat split; reflexivity
    end.
Qed.

(** X19. The address of the record is derived from the mint and from
    nothing else: it is the metadata PDA of [mintAddress], and two accounts
    with the same mint give the same address, whatever else they hold and
    whatever json is passed. *)
Theorem toMetadata_address_from_mint :
  forall (a1 a2 : MetadataAccount) (j1 j2 : Optional (Nullable JsonMetadata)),
    acc_mint (account_data a1) = acc_mint (account_data a2) ->
    Metadata.address (toMetadata findMetadataPda a1 j1)
      = findMetadataPda (mintAddress (toMetadata findMetadataPda a1 j1)) /\
    Metadata.address (toMetadata findMetadataPda a1 j1)
      = Metadata.address (toMetadata findMetadataPda a2 j2).
Proof.
  intros a1 a2 j1 j2 E. simpl. rewrite E. split; reflexivity.
Qed.

End MapperFields.

(** The sample account under another key, with another authority and no
    collection. *)
Lemma toMetadata_address_from_mint_witness :
  Metadata.address (toMetadata sample_pda sample_account Undefined)
  = Metadata.address
      (toMetadata sample_pda
         {| account_publicKey := "OtherKey";
            account_data :=
              {| acc_updateAuthority := "Other";
                 acc_mint := "Mint";
                 acc_data := acc_data (account_data sample_account);
                 acc_primarySaleHappened := true;
                 acc_isMutable := false;
                 acc_editionNonce := Null;
                 acc_tokenStandard := Null;
                 acc_collection := Null;
                 acc_uses := Null;
                 acc_collectionDetails := Null |} |}
         (Defined Null)).
Proof.
  exact (proj2 (toMetadata_address_from_mint sample_pda sample_account _
                  Undefined (Defined Null) eq_refl)).
Defined.

Lemma toMetadata_json_ignored_is_null_witness :
  Metadata.json (toMetadata sample_pda sample_account Undefined) = Null.
Proof.
  exact (proj1 (toMetadata_json_ignored_is_null sample_pda sample_account Undefined)
               eq_refl).
Defined.

Lemma toMetadata_creators_default_witness :
  creators (toMetadata sample_pda sample_account Undefined) = [].
Proof.
  exact (proj1 (toMetadata_creators_default sample_pda sample_account Undefined)
               eq_refl).
Defined.

Lemma toMetadata_optional_parts_witness :
  exists det,
    collectionDetails (toMetadata sample_pda sample_account Undefined) = NotNull det /\
    version det = V1 /\ size det = 42.
Proof.
  destruct (toMetadata_optional_parts sample_pda sample_account Undefined)
    as (_ & _ & _ & _ & K & _).
  exact (K {| adet___kind := V1; adet_size := 42 |} eq_refl).
Defined.

End MetadataSpec.

(* ===================================================================== *)
(** * Properties of the Bundlr storage driver *)
(* ===================================================================== *)

Module BundlrSpec.
Import Js Bundlr.

Section Driver.
Context {W : Type} `{BundlrClient W}.
Local Open Scope driver_scope.

(** ** Running the monad *)

Lemma mbind_ok :
  forall A B (m : M W A) (k : A -> M W B) s a s1,
    m s = (Ok a, s1) -> mbind m k s = k a s1.
Proof. intros A B m k s a s1 E. unfold mbind. rewrite E. reflexivity. Qed.

Lemma mbind_fail :
  forall A B (m : M W A) (k : A -> M W B) s e s1,
    m s = (Fail e, s1) -> mbind m k s = (Fail e, s1).
Proof. intros A B m k s e s1 E. unfold mbind. rewrite E. reflexivity. Qed.

Lemma mbind_inv_ok :
  forall A B (m : M W A) (k : A -> M W B) s r s',
    mbind m k s = (Ok r, s') ->
    exists a s1, m s = (Ok a, s1) /\ k a s1 = (Ok r, s').
Proof.
  intros A B m k s r s' E. unfold mbind in E.
  destruct (m s) as [[a|e] s1]; [|discriminate].
  exists a, s1. split; [reflexivity|exact E].
Qed.

Lemma invoke_returned :
  forall A (c : Call) (op : W -> Reply A * W) s a w,
    op (network s) = (Returned a, w) -> invoke c op s = (Ok a, log_call c w s).
Proof. intros A c op s a w E. unfold invoke. rewrite E. reflexivity. Qed.

Lemma invoke_threw :
  forall A (c : Call) (op : W -> Reply A * W) s e w,
    op (network s) = (Threw e, w) ->
    invoke c op s = (Fail (ClientFailure e), log_call c w s).
Proof. intros A c op s e w E. unfold invoke. rewrite E. reflexivity. Qed.

(** ** The client handle *)

Lemma keeps_ret : forall b A (a : A), keeps b (ret a : M W A).
Proof. intros b A a s Hs. exact Hs. Qed.

Lemma keeps_throw : forall b A e, keeps b (@throw W A e).
Proof. intros b A e s Hs. exact Hs. Qed.

Lemma keeps_get_driver : forall b, keeps b (get_driver : M W Driver).
Proof. intros b s Hs. exact Hs. Qed.

Lemma keeps_bind :
  forall b A B (m : M W A) (k : A -> M W B),
    keeps b m -> (forall a, keeps b (k a)) -> keeps b (mbind m k).
Proof.
  intros b A B m k Hm Hk s Hs. unfold mbind.
  specialize (Hm s Hs). destruct (m s) as [[a|e] s1]; simpl in *.
  - apply Hk. exact Hm.
  - exact Hm.
Qed.

Lemma keeps_invoke :
  forall b A (c : Call) (op : W -> Reply A * W), keeps b (invoke c op).
Proof.
  intros b A c op s Hs. unfold invoke.
  destruct (op (network s)) as [r w]. exact Hs.
Qed.

Lemma keeps_state :
  forall b A (f : State W -> Res A), keeps b (fun s => (f s, s)).
Proof. intros b A f s Hs. exact Hs. Qed.

Lemma keeps_set_flag :
  forall b flag, keeps b (set_withdrawAfterUploading flag : M W unit).
Proof. intros b flag s Hs. exact Hs. Qed.

Lemma keeps_use_identity : forall b id, keeps b (use_identity id : M W unit).
Proof. intros b id s Hs. exact Hs. Qed.

Lemma keeps_if :
  forall b A (c : bool) (m1 m2 : M W A),
    keeps b m1 -> keeps b m2 -> keeps b (if c then m1 else m2).
Proof. intros b A [] m1 m2 H1 H2; assumption. Qed.

(** Once a handle is stored, [getBundlr] returns it and does nothing else:
    the state, the network and the log of calls are as they were. *)
Lemma getBundlr_memo :
  forall s b, bundlr (driver s) = Some b -> getBundlr s = (Ok b, s).
Proof.
  intros s b Hs. unfold getBundlr, mbind, get_driver. rewrite Hs. reflexivity.
Qed.

Lemma keeps_getBundlr : forall b, keeps b getBundlr.
Proof. intros b s Hs. rewrite (getBundlr_memo s b Hs). exact Hs. Qed.

(** What [getBundlr] does on a driver with no handle yet. *)
Lemma getBundlr_init :
  forall s, bundlr (driver s) = None ->
    let b := construct_client (driver s) in
    let s0 := log_call (NewBundlr b) (network s) s in
    getBundlr s =
      match client_getBundlerAddress b currency (network s) with
      | (Threw e, w1) =>
          (Fail (FailedToConnectToBundlrAddressError (bundlr_address (driver s)) e),
           log_call (GetBundlerAddress b currency) w1 s0)
      | (Returned _, w1) =>
          let s1 := log_call (GetBundlerAddress b currency) w1 s0 in
          if instanceof_WebBundlr b then
            match client_ready b w1 with
            | (Threw e, w2) =>
                (Fail (FailedToInitializeBundlrError e), log_call (Ready b) w2 s1)
            | (Returned _, w2) => (Ok b, store_bundlr b (log_call (Ready b) w2 s1))
            end
          else (Ok b, store_bundlr b s1)
      end.
Proof.
  intros s Hs b s0. subst b s0.
  unfold getBundlr, mbind at 1, get_driver. rewrite Hs.
  unfold mbind, rethrow, invoke, new_client, set_bundlr, ret. simpl.
  destruct (client_getBundlerAddress (construct_client (driver s)) currency (network s))
    as [[a|e] w1]; [|reflexivity].
  destruct (instanceof_WebBundlr (construct_client (driver s))); [|reflexivity].
  simpl. destruct (client_ready (construct_client (driver s)) w1) as [[u|e] w2];
    reflexivity.
Qed.

(** A successful [getBundlr] leaves the handle it returned stored. *)
Lemma getBundlr_stores :
  forall s b s1, getBundlr s = (Ok b, s1) -> bundlr (driver s1) = Some b.
Proof.
  intros s b s1 E. destruct (bundlr (driver s)) as [b0|] eqn:Hs.
  - rewrite (getBundlr_memo s b0 Hs) in E. inversion E; subst. exact Hs.
  - rewrite (getBundlr_init s Hs) in E. cbv zeta in E.
    destruct (client_getBundlerAddress _ _ _) as [[a|e] w1]; [|discriminate].
    destruct (instanceof_WebBundlr _).
    + destruct (client_ready _ _) as [[u|e] w2]; [|discriminate].
      inversion E; subst. reflexivity.
    + inversion E; subst. reflexivity.
Qed.

Create HintDb keeps.

#[local] Hint Resolve keeps_ret keeps_throw keeps_get_driver keeps_bind keeps_invoke
  keeps_state keeps_set_flag keeps_use_identity keeps_if keeps_getBundlr : keeps.

Ltac unfold_methods :=
  unfold upload, needsFunding, getPrice, getBalance, getMultipliedPrice,
    shouldWithdrawAfterUploading, withdrawAfterUploading, dontWithdrawAfterUploading.

Ltac keeps_method := intro; unfold_methods; auto 30 with keeps.

Lemma keeps_getBalance : forall b, keeps b getBalance.
Proof. keeps_method. Qed.

Lemma keeps_getMultipliedPrice : forall b bytes, keeps b (getMultipliedPrice bytes).
Proof. intros b bytes. unfold getMultipliedPrice. auto 30 with keeps. Qed.

#[local] Hint Resolve keeps_getBalance keeps_getMultipliedPrice : keeps.

Lemma keeps_fundingNeeded : forall b fb skip, keeps b (fundingNeeded fb skip).
Proof. intros b fb skip. unfold fundingNeeded. auto 30 with keeps. Qed.

#[local] Hint Resolve keeps_fundingNeeded : keeps.

Lemma keeps_fund : forall b fb skip, keeps b (fund fb skip).
Proof. intros b fb skip. unfold fund. auto 30 with keeps. Qed.

Lemma keeps_withdraw : forall b amount, keeps b (withdraw amount).
Proof. intros b amount. unfold withdraw. auto 30 with keeps. Qed.

#[local] Hint Resolve keeps_fund keeps_withdraw : keeps.

Lemma keeps_withdrawAll : forall b, keeps b withdrawAll.
Proof. intros b. unfold withdrawAll. auto 30 with keeps. Qed.

#[local] Hint Resolve keeps_withdrawAll : keeps.

(** The uploads of a batch, run on a driver that has its client: the
    promises are those of the answers of the network, file by file, and the
    log grows by one upload call per file, in the order of the files. *)
Lemma uploadFiles_run :
  forall b files s,
    bundlr (driver s) = Some b ->
    uploadFiles files s =
      (map promise_of_reply (fst (upload_replies b files (network s))),
       {| driver := driver s;
          network := snd (upload_replies b files (network s));
          calls := calls s ++ map (upload_call b) files |}).
Proof.
  intros b files. induction files as [|file rest IH]; intros s Hs; simpl.
  - rewrite app_nil_r. destruct s; reflexivity.
  - unfold uploadFile_promise. rewrite (getBundlr_memo s b Hs).
    destruct (client_upload b (toBuffer file) (getTagsWithContentType file) (network s))
      as [r w1] eqn:Eu.
    rewrite (IH (log_call (Upload b (toBuffer file) (getTagsWithContentType file)) w1 s) Hs).
    simpl. destruct (upload_replies b rest w1) as [rs w2]. simpl.
    rewrite <- app_assoc. reflexivity.
Qed.

Lemma upload_replies_length :
  forall b files w, List.length (fst (upload_replies b files w)) = List.length files.
Proof.
  intros b files. induction files as [|file rest IH]; intro w; simpl; [reflexivity|].
  destruct (client_upload _ _ _ w) as [r w1].
  specialize (IH w1). destruct (upload_replies b rest w1) as [rs w2].
  simpl in *. rewrite IH. reflexivity.
Qed.

Lemma keeps_uploadFiles :
  forall b files,
    keeps b (fun s => let (ps, s') := uploadFiles files s in (Ok ps, s')).
Proof.
  intros b files s Hs. rewrite (uploadFiles_run b files s Hs). exact Hs.
Qed.

#[local] Hint Resolve keeps_uploadFiles : keeps.

Lemma keeps_uploadAll : forall b files, keeps b (uploadAll files).
Proof.
  intros b files. unfold uploadAll.
  apply keeps_bind; [apply keeps_fund|intros _].
  apply keeps_bind; [apply keeps_uploadFiles|intro promises].
  apply keeps_bind; [exact (keeps_state b _ (fun _ => Promise_all promises))|intro uris].
  unfold shouldWithdrawAfterUploading. auto 30 with keeps.
Qed.

#[local] Hint Resolve keeps_uploadAll : keeps.

Lemma run_op_keeps :
  forall b op s, bundlr (driver s) = Some b -> bundlr (driver (run_op op s)) = Some b.
Proof.
  intros b op s Hs.
  destruct op; cbn [run_op];
    match goal with
    | |- bundlr (driver (snd (?m s))) = _ =>
        assert (Hk : keeps b m) by (unfold_methods; auto 30 with keeps);
        exact (Hk s Hs)
    end.
Qed.

Lemma run_ops_keeps :
  forall b ops s, bundlr (driver s) = Some b -> bundlr (driver (run_ops ops s)) = Some b.
Proof.
  intros b ops. unfold run_ops.
  induction ops as [|op rest IH]; intros s Hs; simpl; [exact Hs|].
  apply IH. apply run_op_keeps. exact Hs.
Qed.

(** ** Prices and funding *)

Lemma fold_left_bytes :
  forall files acc,
    fold_left (fun total file => total + file_getBytes file) files acc
      = acc + total_bytes files.
Proof.
  induction files as [|file rest IH]; intro acc; simpl; [lia|].
  rewrite IH. lia.
Qed.

(** [getBytes] of a list of files is the sum of their byte lengths. *)
Lemma getBytes_Files : forall files, getBytes (Files files) = total_bytes files.
Proof. intro files. unfold getBytes. rewrite fold_left_bytes. lia. Qed.

(** Rounding moves a number by a half at most. *)
Lemma round_half_up_error :
  forall q : Q, (Qabs (inject_Z (round_half_up q) - q) <= 1 # 2)%Q.
Proof.
  intro q. apply Qabs_Qle_condition. unfold round_half_up.
  destruct (Qle_bool 0 q).
  - pose proof (Qfloor_le (q + (1 # 2))) as Hle.
    pose proof (Qlt_floor (q + (1 # 2))) as Hlt.
    rewrite inject_Z_plus in Hlt. change (inject_Z 1) with 1%Q in Hlt.
    set (n := inject_Z (Qfloor (q + (1 # 2)))) in *. split; lra.
  - pose proof (Qfloor_le (- q + (1 # 2))) as Hle.
    pose proof (Qlt_floor (- q + (1 # 2))) as Hlt.
    rewrite inject_Z_plus in Hlt. change (inject_Z 1) with 1%Q in Hlt.
    rewrite inject_Z_opp.
    set (n := inject_Z (Qfloor (- q + (1 # 2)))) in *. split; lra.
Qed.

(** [getBundlr] changes neither the options nor the flag, and withdraws
    nothing. *)
Lemma getBundlr_frame :
  forall s r s1,
    getBundlr s = (r, s1) ->
    options (driver s1) = options (driver s) /\
    _withdrawAfterUploading (driver s1) = _withdrawAfterUploading (driver s) /\
    withdrawals (calls s1) = withdrawals (calls s).
Proof.
  intros s r s1 E. destruct (bundlr (driver s)) as [b0|] eqn:Hs.
  - rewrite (getBundlr_memo s b0 Hs) in E. inversion E; subst. auto.
  - rewrite (getBundlr_init s Hs) in E. cbv zeta in E.
    assert (Hw : forall l c, is_init_call c = true ->
                             withdrawals (l ++ [c]) = withdrawals l).
    { intros l c Hc. induction l as [|c' l IH]; simpl.
      - destruct c; simpl in *; try discriminate; reflexivity.
      - rewrite IH. reflexivity. }
    destruct (client_getBundlerAddress _ _ _) as [[a|e] w1].
    + destruct (instanceof_WebBundlr _).
      * destruct (client_ready _ _) as [[u|e] w2]; inversion E; subst; simpl;
          rewrite !Hw by reflexivity; auto.
      * inversion E; subst; simpl. rewrite !Hw by reflexivity. auto.
    + inversion E; subst; simpl. rewrite !Hw by reflexivity. auto.
Qed.

(** The marked-up price: the price of the network for that many bytes,
    times the multiplier of the options (1.5 when there is none), rounded. *)
Lemma getMultipliedPrice_run :
  forall bytes s b s1 p w1,
    getBundlr s = (Ok b, s1) ->
    client_getPrice b bytes (network s1) = (Returned p, w1) ->
    getMultipliedPrice bytes s =
      (Ok (decimalPlaces0
             (multipliedBy p (undefined_or (priceMultiplier (options (driver s))) (3 # 2)))),
       log_call (GetPrice b bytes) w1 s1).
Proof.
  intros bytes s b s1 p w1 Eb Ep. unfold getMultipliedPrice.
  rewrite (mbind_ok _ _ _ _ _ _ _ Eb).
  rewrite (mbind_ok _ _ _ _ _ _ _ (invoke_returned _ _ _ _ _ _ Ep)).
  destruct (getBundlr_frame s _ s1 Eb) as [Ho _].
  unfold mbind, get_driver, ret. simpl. rewrite Ho. reflexivity.
Qed.

(** C8. [getPrice] asks the network the price of as many bytes as the
    files have in all, multiplies it by the multiplier of the options, 1.5
    when none is configured, and returns the nearest integer amount (at
    most a half away from the product). *)
Theorem getPrice_marked_up :
  forall (files : list MetaplexFile) (s : State W) b s1 p w1,
    getBundlr s = (Ok b, s1) ->
    client_getPrice b (total_bytes files) (network s1) = (Returned p, w1) ->
    let markup := undefined_or (priceMultiplier (options (driver s))) (3 # 2) in
    exists n : Z,
      getPrice files s
        = (Ok (fromLamports (inject_Z n)), log_call (GetPrice b (total_bytes files)) w1 s1) /\
      n = round_half_up (p * markup) /\
      (Qabs (inject_Z n - p * markup) <= 1 # 2)%Q.
Proof.
  intros files s b s1 p w1 Eb Ep markup.
  exists (round_half_up (p * markup)). split; [|split].
  - unfold getPrice. rewrite getBytes_Files.
    rewrite (mbind_ok _ _ _ _ _ _ _ (getMultipliedPrice_run _ _ _ _ _ _ Eb Ep)).
    reflexivity.
  - reflexivity.
  - apply round_half_up_error.
Qed.

(** [fundingNeeded] with the balance read. *)
Lemma fundingNeeded_run :
  forall (filesOrBytes : FilesOrBytes) (s : State W) b s1 p w1 balance w2,
    getBundlr s = (Ok b, s1) ->
    client_getPrice b (getBytes filesOrBytes) (network s1) = (Returned p, w1) ->
    client_getLoadedBalance b w1 = (Returned balance, w2) ->
    let price :=
      decimalPlaces0
        (multipliedBy p (undefined_or (priceMultiplier (options (driver s))) (3 # 2))) in
    fundingNeeded filesOrBytes false s
      = (Ok (if isGreaterThan price balance then minus price balance else 0%Q),
         log_call (GetLoadedBalance b) w2
           (log_call (GetPrice b (getBytes filesOrBytes)) w1 s1)).
Proof.
  intros fb s b s1 p w1 balance w2 Eb Ep Ebal price.
  pose proof (getMultipliedPrice_run _ _ _ _ _ _ Eb Ep) as Em. fold price in Em.
  set (s2 := log_call (GetPrice b (getBytes fb)) w1 s1) in *.
  assert (Hb2 : bundlr (driver s2) = Some b).
  { subst s2. simpl. exact (getBundlr_stores s b s1 Eb). }
  unfold fundingNeeded. rewrite (mbind_ok _ _ _ _ _ _ _ Em).
  rewrite (mbind_ok _ _ _ _ _ _ _ (getBundlr_memo s2 b Hb2)).
  assert (Ebal' : client_getLoadedBalance b (network s2) = (Returned balance, w2))
    by exact Ebal.
  rewrite (mbind_ok _ _ _ _ _ _ _ (invoke_returned _ _ _ _ _ _ Ebal')).
  reflexivity.
Qed.

(** [fund] on a batch: nothing is deposited when the balance covers the
    marked-up price of the whole batch, the shortfall is deposited when it
    does not. *)
Lemma fund_shortfall :
  forall (filesOrBytes : FilesOrBytes) (s : State W) b s1 p w1 balance w2,
    getBundlr s = (Ok b, s1) ->
    client_getPrice b (getBytes filesOrBytes) (network s1) = (Returned p, w1) ->
    client_getLoadedBalance b w1 = (Returned balance, w2) ->
    let price :=
      decimalPlaces0
        (multipliedBy p (undefined_or (priceMultiplier (options (driver s))) (3 # 2))) in
    let s3 := log_call (GetLoadedBalance b) w2
                (log_call (GetPrice b (getBytes filesOrBytes)) w1 s1) in
    ((price <= balance)%Q -> fund filesOrBytes false s = (Ok tt, s3)) /\
    ((balance < price)%Q ->
       fund filesOrBytes false s
         = invoke (FundCall b (price - balance)%Q) (client_fund b (price - balance)%Q) s3).
Proof.
  intros fb s b s1 p w1 balance w2 Eb Ep Ebal price s3.
  pose proof (getBundlr_stores s b s1 Eb) as Hb1.
  destruct (getBundlr_frame s _ s1 Eb) as (Ho & _).
  pose proof (fundingNeeded_run fb s1 b s1 p w1 balance w2
                (getBundlr_memo s1 b Hb1) Ep Ebal) as En.
  cbv zeta in En. rewrite Ho in En. fold price s3 in En.
  unfold fund. rewrite (mbind_ok _ _ _ _ _ _ _ Eb).
  rewrite (mbind_ok _ _ _ _ _ _ _ En).
  unfold isGreaterThan, minus.
  destruct (Qle_bool price balance) eqn:Ecmp; cbn [negb].
  - apply Qle_bool_iff in Ecmp. split; intro Hcmp; [reflexivity|lra].
  - assert (Hlt : (balance < price)%Q).
    { apply Qnot_le_lt. intro Hle. apply Qle_bool_iff in Hle. congruence. }
    assert (Epos : Qle_bool (price - balance) 0 = false).
    { destruct (Qle_bool (price - balance) 0) eqn:E; [|reflexivity].
      apply Qle_bool_iff in E. lra. }
    rewrite Epos. cbn [negb]. split; intro Hcmp; [lra|reflexivity].
Qed.

(** C2. With skipBalanceCheck = true, [fundingNeeded] returns the marked-up
    price and does not read the balance.  With skipBalanceCheck = false it
    reads the balance and returns zero when the balance is at least the
    price, the price minus the balance when the balance is below the price;
    what it returns is never negative. *)
Theorem fundingNeeded_result :
  forall (filesOrBytes : FilesOrBytes) (s : State W) b s1 p w1,
    getBundlr s = (Ok b, s1) ->
    client_getPrice b (getBytes filesOrBytes) (network s1) = (Returned p, w1) ->
    let price :=
      decimalPlaces0
        (multipliedBy p (undefined_or (priceMultiplier (options (driver s))) (3 # 2))) in
    let s2 := log_call (GetPrice b (getBytes filesOrBytes)) w1 s1 in
    fundingNeeded filesOrBytes true s = (Ok price, s2) /\
    (forall balance w2,
       client_getLoadedBalance b w1 = (Returned balance, w2) ->
       exists needed,
         fundingNeeded filesOrBytes false s
           = (Ok needed, log_call (GetLoadedBalance b) w2 s2) /\
         ((price <= balance)%Q -> needed = 0%Q) /\
         ((balance < price)%Q -> needed = (price - balance)%Q) /\
         (0 <= needed)%Q).
Proof.
  intros fb s b s1 p w1 Eb Ep price s2.
  pose proof (getMultipliedPrice_run _ _ _ _ _ _ Eb Ep) as Em.
  fold price s2 in Em. split.
  - unfold fundingNeeded. rewrite (mbind_ok _ _ _ _ _ _ _ Em). reflexivity.
  - intros balance w2 Ebal.
    exists (if isGreaterThan price balance then minus price balance else 0%Q).
    split; [exact (fundingNeeded_run fb s b s1 p w1 balance w2 Eb Ep Ebal)|].
    unfold isGreaterThan, minus.
    destruct (Qle_bool price balance) eqn:Ecmp; simpl.
    + apply Qle_bool_iff in Ecmp. repeat split; intros; try reflexivity; lra.
    + assert (Hlt : (balance < price)%Q).
      { apply Qnot_le_lt. intro Hle. apply Qle_bool_iff in Hle. congruence. }
      repeat split; intros; try reflexivity; lra.
Qed.

(** ** Withdrawals *)

Lemma withdrawals_app :
  forall l1 l2, withdrawals (l1 ++ l2) = (withdrawals l1 ++ withdrawals l2)%list.
Proof.
  induction l1 as [|c l1 IH]; intro l2; simpl; [reflexivity|].
  destruct c; simpl; rewrite IH; reflexivity.
Qed.

(** C3, as the code has it. [withdrawAll] reads the balance; when the
    balance is below 5000 lamports no withdrawal call is made; otherwise,
    the balance being 5000 or more, exactly one withdrawal call is made, of
    the balance minus 5000 (whatever the client then answers). *)
Theorem withdrawAll_reserve :
  forall (s : State W) b s1 balance w1,
    getBundlr s = (Ok b, s1) ->
    client_getLoadedBalance b (network s1) = (Returned balance, w1) ->
    ((balance < inject_Z 5000)%Q ->
       withdrawAll s = (Ok tt, log_call (GetLoadedBalance b) w1 s1) /\
       withdrawals (calls (snd (withdrawAll s))) = withdrawals (calls s)) /\
    ((inject_Z 5000 <= balance)%Q ->
       withdrawals (calls (snd (withdrawAll s)))
         = (withdrawals (calls s) ++ [(balance - inject_Z 5000)%Q])%list).
Proof.
  intros s b s1 balance w1 Eb Ebal.
  destruct (getBundlr_frame s _ s1 Eb) as (_ & _ & Hw).
  assert (Egb : getBalance s = (Ok (fromLamports balance), log_call (GetLoadedBalance b) w1 s1)).
  { unfold getBalance. rewrite (mbind_ok _ _ _ _ _ _ _ Eb).
    rewrite (mbind_ok _ _ _ _ _ _ _ (invoke_returned _ _ _ _ _ _ Ebal)). reflexivity. }
  unfold withdrawAll. rewrite (mbind_ok _ _ _ _ _ _ _ Egb).
  unfold amount_isLessThan, isLessThan, minimumBalance, fromLamports. cbn [lamports].
  split; intro Hbal.
  - assert (Ecmp : Qle_bool (inject_Z 5000) balance = false).
    { destruct (Qle_bool (inject_Z 5000) balance) eqn:E; [|reflexivity].
      apply Qle_bool_iff in E. lra. }
    rewrite Ecmp. simpl. split; [reflexivity|].
    rewrite withdrawals_app. simpl. rewrite app_nil_r. exact Hw.
  - assert (Ecmp : Qle_bool (inject_Z 5000) balance = true)
      by (apply Qle_bool_iff; exact Hbal).
    rewrite Ecmp. cbn [negb].
    unfold withdraw, getLamports, amount_minus, minus. cbn [lamports].
    set (s2 := log_call (GetLoadedBalance b) w1 s1).
    assert (Hb2 : bundlr (driver s2) = Some b)
      by (subst s2; simpl; exact (getBundlr_stores s b s1 Eb)).
    rewrite (mbind_ok _ _ _ _ _ _ _ (getBundlr_memo s2 b Hb2)).
    unfold mbind, invoke.
    destruct (client_withdrawBalance b (balance - inject_Z 5000)%Q (network s2))
      as [[status|e] w2]; simpl.
    + destruct (300 <=? status); simpl;
        rewrite !withdrawals_app; simpl; rewrite app_nil_r, Hw; reflexivity.
    + rewrite !withdrawals_app; simpl; rewrite app_nil_r, Hw; reflexivity.
Qed.

(** ** Uploads *)

Lemma first_rejection_None :
  forall A (ps : list (Promise A)),
    first_rejection ps = None ->
    forall p e, In p ps -> outcome p <> Fail e.
Proof.
  intros A ps. induction ps as [|q rest IH]; intros E p e Hin; [destruct Hin|].
  simpl in E. destruct (outcome q) as [a|e0] eqn:Eq.
  - destruct Hin as [<-|Hin]; [congruence|]. exact (IH E p e Hin).
  - destruct (first_rejection rest) as [[t' e']|]; [|discriminate].
    destruct (settledAt q <=? t')%nat; discriminate.
Qed.

(** [Promise.all] rejects with the reason of a promise that rejected, and
    no promise rejected before that one. *)
Lemma first_rejection_Some :
  forall A (ps : list (Promise A)) t e,
    first_rejection ps = Some (t, e) ->
    exists p, In p ps /\ settledAt p = t /\ outcome p = Fail e /\
      forall p' e', In p' ps -> outcome p' = Fail e' -> (t <= settledAt p')%nat.
Proof.
  intros A ps. induction ps as [|q rest IH]; intros t e E; [discriminate|].
  simpl in E. destruct (outcome q) as [a|e0] eqn:Eq.
  - destruct (IH t e E) as (p & Hin & Ht & Ho & Hmin).
    exists p. repeat split; auto. { right; exact Hin. }
    intros p' e' [<-|Hin'] Ho'; [congruence|]. exact (Hmin p' e' Hin' Ho').
  - destruct (first_rejection rest) as [[t' e']|] eqn:Er.
    + destruct (IH t' e' eq_refl) as (p & Hin & Ht & Ho & Hmin).
      destruct (Nat.leb_spec (settledAt q) t') as [Hle|Hgt]; inversion E; subst.
      * exists q. repeat split; auto. { left; reflexivity. }
        intros p' e'' [<-|Hin'] Ho'; [lia|].
        specialize (Hmin p' e'' Hin' Ho'). lia.
      * exists p. repeat split; auto. { right; exact Hin. }
        intros p' e'' [<-|Hin'] Ho'; [lia|]. exact (Hmin p' e'' Hin' Ho').
    + inversion E; subst. exists q. repeat split; auto. { left; reflexivity. }
      intros p' e'' [<-|Hin'] Ho'; [lia|].
      exfalso. exact (first_rejection_None A rest Er p' e'' Hin' Ho').
Qed.


Lemma uploadFile_result_accepted :
  forall r, accepted r = true ->
    exists resp, snd r = Returned resp /\
                 uploadFile_result (snd r) = Ok (gateway ++ upload_id resp).
Proof.
  intros [t [resp|e]] Ha; unfold accepted in Ha; simpl in *; [|discriminate].
  exists resp. split; [reflexivity|].
  apply Z.ltb_lt in Ha.
  destruct (Z.leb_spec 300 (upload_status resp)); [lia|reflexivity].
Qed.


(** When the network accepts every upload, [Promise.all] gives the URIs,
    one per answer and in the order of the answers. *)
Lemma Promise_all_accepted :
  forall replies,
    (forall r, In r replies -> accepted r = true) ->
    exists uris,
      Promise_all (map promise_of_reply replies) = Ok uris /\
      Forall2 uri_for replies uris.
Proof.
  intros replies Hall. unfold Promise_all.
  assert (Hnone : first_rejection (map promise_of_reply replies) = None).
  { destruct (first_rejection (map promise_of_reply replies)) as [[t e]|] eqn:E;
      [|reflexivity].
    destruct (first_rejection_Some _ _ _ _ E) as (p & Hin & _ & Ho & _).
    apply in_map_iff in Hin. destruct Hin as (r & <- & Hr).
    destruct (uploadFile_result_accepted r (Hall r Hr)) as (resp & _ & Hok).
    simpl in Ho. congruence. }
  rewrite Hnone. eexists. split; [reflexivity|].
  clear Hnone. induction replies as [|r rest IH]; simpl; [constructor|].
  destruct (uploadFile_result_accepted r (Hall r (or_introl eq_refl)))
    as (resp & Hr & Hok).
  rewrite Hok. constructor.
  - exists resp. split; [exact Hr|reflexivity].
  - apply IH. intros r' Hr'. apply Hall. right. exact Hr'.
Qed.


(** A successful [fund] leaves the driver with its client. *)
Lemma fund_stores :
  forall fb skip (s s1 : State W),
    fund fb skip s = (Ok tt, s1) -> exists b, bundlr (driver s1) = Some b.
Proof.
  intros fb skip s s1 E. unfold fund in E.
  apply mbind_inv_ok in E. destruct E as (b & s0 & Eb & Erest).
  exists b. pose proof (getBundlr_stores s b s0 Eb) as Hb.
  match type of Erest with ?m s0 = _ =>
    assert (Hk : keeps b m) by auto 30 with keeps;
    specialize (Hk s0 Hb); rewrite Erest in Hk; exact Hk
  end.
Qed.

(** [uploadAll] once the funding is done. *)
Lemma uploadAll_after_fund :
  forall files (s s1 : State W) b,
    fund (Files files) false s = (Ok tt, s1) ->
    bundlr (driver s1) = Some b ->
    let replies := fst (upload_replies b files (network s1)) in
    let s2 := {| driver := driver s1;
                 network := snd (upload_replies b files (network s1));
                 calls := calls s1 ++ map (upload_call b) files |} in
    uploadAll files s =
      match Promise_all (map promise_of_reply replies) with
      | Fail e => (Fail e, s2)
      | Ok uris =>
          if _withdrawAfterUploading (driver s1)
          then match withdrawAll s2 with
               | (Ok _, s3) => (Ok uris, s3)
               | (Fail e, s3) => (Fail e, s3)
               end
          else (Ok uris, s2)
      end.
Proof.
  intros files s s1 b Ef Hb replies s2. unfold uploadAll.
  rewrite (mbind_ok _ _ _ _ _ _ _ Ef).
  unfold mbind at 1. rewrite (uploadFiles_run b files s1 Hb). fold replies s2.
  unfold mbind at 1.
  destruct (Promise_all (map promise_of_reply replies)) as [uris|e]; [|reflexivity].
  unfold shouldWithdrawAfterUploading, mbind, get_driver, ret. simpl.
  destruct (_withdrawAfterUploading (driver s1)); [|reflexivity].
  destruct (withdrawAll s2) as [[u|e] s3]; reflexivity.
Qed.



End Driver.

(** ** The driver on the small network *)

Example uploadAll_two_files :
  fst (uploadAll [sim_file 10; sim_file 20]
         (sim_state sim_keypair (sim_net 0 [sim_accept 5 "a"; sim_accept 2 "b"])))
  = Ok ["https://arweave.net/a"; "https://arweave.net/b"].
Proof. vm_compute. reflexivity. Qed.

Example uploadAll_two_refused :
  fst (uploadAll [sim_file 10; sim_file 20]
         (sim_state sim_keypair (sim_net 0 [sim_refuse 5 500; sim_refuse 2 404])))
  = Fail (AssetUploadFailedError 404).
Proof. vm_compute. reflexivity. Qed.

Example round_half_up_ties :
  round_half_up (9 # 2) = 5 /\ round_half_up (- (9 # 2)) = -5 /\
  round_half_up (22 # 5) = 4.
Proof. vm_compute. auto. Qed.

Lemma getPrice_marked_up_witness :
  exists s1 w1 n,
    getBundlr (sim_state sim_keypair (sim_net 0 [])) = (Ok node_client, s1) /\
    client_getPrice node_client (total_bytes [sim_file 3]) (network s1)
      = (Returned (inject_Z 3 * 1)%Q, w1) /\
    fst (getPrice [sim_file 3] (sim_state sim_keypair (sim_net 0 [])))
      = Ok (fromLamports (inject_Z n)) /\
    n = 5.
Proof.
  set (s := sim_state sim_keypair (sim_net 0 [])).
  assert (Eb : getBundlr s = (Ok node_client, snd (getBundlr s)))
    by (vm_compute; reflexivity).
  assert (Ep : client_getPrice node_client (total_bytes [sim_file 3])
                 (network (snd (getBundlr s)))
               = (Returned (inject_Z 3 * 1)%Q, network (snd (getBundlr s))))
    by (vm_compute; reflexivity).
  destruct (getPrice_marked_up [sim_file 3] s node_client _ _ _ Eb Ep)
    as (n & E & Hn & _).
  exists (snd (getBundlr s)), (network (snd (getBundlr s))), n.
  split; [exact Eb|]. split; [exact Ep|]. split.
  - rewrite E. reflexivity.
  - rewrite Hn. vm_compute. reflexivity.
Defined.

Lemma fundingNeeded_result_witness :
  fst (fundingNeeded (Bytes 100) true (sim_state sim_keypair (sim_net 40 [])))
    = Ok (inject_Z 150) /\
  exists needed,
    fst (fundingNeeded (Bytes 100) false (sim_state sim_keypair (sim_net 40 [])))
      = Ok needed /\
    needed = (inject_Z 150 - 40)%Q.
Proof.
  set (s := sim_state sim_keypair (sim_net 40 [])).
  assert (Eb : getBundlr s = (Ok node_client, snd (getBundlr s)))
    by (vm_compute; reflexivity).
  assert (Ep : client_getPrice node_client (getBytes (Bytes 100))
                 (network (snd (getBundlr s)))
               = (Returned (inject_Z 100 * 1)%Q, network (snd (getBundlr s))))
    by (vm_compute; reflexivity).
  pose proof (fundingNeeded_result (Bytes 100) s node_client _ _ _ Eb Ep) as [E1 E2].
  split.
  - rewrite E1. vm_compute. reflexivity.
  - assert (Ebal : client_getLoadedBalance node_client (network (snd (getBundlr s)))
                   = (Returned 40%Q, network (snd (getBundlr s))))
      by (vm_compute; reflexivity).
    destruct (E2 40%Q _ Ebal) as (needed & E & _ & Hlt & _).
    exists needed. split; [rewrite E; reflexivity|].
    rewrite Hlt; [vm_compute; reflexivity|].
    vm_compute. reflexivity.
Defined.

Lemma withdrawAll_reserve_witness :
  withdrawals (calls (snd (withdrawAll (sim_state sim_keypair (sim_net 10000 [])))))
    = [5000%Q] /\
  withdrawals (calls (snd (withdrawAll (sim_state sim_keypair (sim_net 4999 [])))))
    = [].
Proof.
  split.
  - set (s := sim_state sim_keypair (sim_net 10000 [])).
    assert (Eb : getBundlr s = (Ok node_client, snd (getBundlr s)))
      by (vm_compute; reflexivity).
    assert (Ebal : client_getLoadedBalance node_client (network (snd (getBundlr s)))
                   = (Returned 10000%Q, network (snd (getBundlr s))))
      by (vm_compute; reflexivity).
    assert (Hbal : (inject_Z 5000 <= 10000)%Q) by (vm_compute; discriminate).
    exact (proj2 (withdrawAll_reserve s node_client _ _ _ Eb Ebal) Hbal).
  - set (s := sim_state sim_keypair (sim_net 4999 [])).
    assert (Eb : getBundlr s = (Ok node_client, snd (getBundlr s)))
      by (vm_compute; reflexivity).
    assert (Ebal : client_getLoadedBalance node_client (network (snd (getBundlr s)))
                   = (Returned 4999%Q, network (snd (getBundlr s))))
      by (vm_compute; reflexivity).
    assert (Hbal : (4999 < inject_Z 5000)%Q) by (vm_compute; reflexivity).
    exact (proj2 (proj1 (withdrawAll_reserve s node_client _ _ _ Eb Ebal) Hbal)).
Defined.

(** C3 as the spec words it fails when the balance is the reserve itself:
    the balance read is 5000, which is at most 5000, and [withdrawAll]
    makes a withdrawal call, of 0. *)
Lemma withdrawAll_at_reserve_withdraws :
  fst (getBalance (sim_state sim_keypair (sim_net 5000 []))) = Ok (fromLamports 5000%Q) /\
  (5000 <= inject_Z 5000)%Q /\
  withdrawals (calls (sim_state sim_keypair (sim_net 5000 []))) = [] /\
  withdrawals (calls (snd (withdrawAll (sim_state sim_keypair (sim_net 5000 []))))) = [0%Q].
Proof.
  split; [vm_compute; reflexivity|].
  split; [vm_compute; discriminate|].
  split; vm_compute; reflexivity.
Qed.


(** ** What the methods leave alone *)

Section Frames.
Context {W : Type} `{BundlrClient W}.
Local Open Scope driver_scope.

Lemma frames_ret : forall X (f : State W -> X) A (a : A), frames f (ret a : M W A).
Proof. intros X f A a s. reflexivity. Qed.

Lemma frames_throw : forall X (f : State W -> X) A e, frames f (@throw W A e).
Proof. intros X f A e s. reflexivity. Qed.

Lemma frames_get_driver : forall X (f : State W -> X), frames f (get_driver : M W Driver).
Proof. intros X f s. reflexivity. Qed.

Lemma frames_bind :
  forall X (f : State W -> X) A B (m : M W A) (k : A -> M W B),
    frames f m -> (forall a, frames f (k a)) -> frames f (mbind m k).
Proof.
  intros X f A B m k Hm Hk s. unfold mbind.
  specialize (Hm s). destruct (m s) as [[a|e] s1]; simpl in *.
  - rewrite (Hk a s1). exact Hm.
  - exact Hm.
Qed.

Lemma frames_if :
  forall X (f : State W -> X) A (c : bool) (m1 m2 : M W A),
    frames f m1 -> frames f m2 -> frames f (if c then m1 else m2).
Proof. intros X f A [] m1 m2 H1 H2; assumption. Qed.

Section Frame.
Context {X : Type} (f : State W -> X).
Hypothesis Hlog : forall c w s, is_withdrawal c = false -> f (log_call c w s) = f s.
Hypothesis Hstore : forall b s, f (store_bundlr b s) = f s.

Lemma frames_invoke :
  forall A (c : Call) (op : W -> Reply A * W),
    is_withdrawal c = false -> frames f (invoke c op).
Proof.
  intros A c op Hc s. unfold invoke.
  destruct (op (network s)) as [r w]. simpl. apply Hlog. exact Hc.
Qed.

Lemma frames_getBundlr : frames f getBundlr.
Proof.
  intro s. destruct (bundlr (driver s)) as [b|] eqn:Hs.
  - rewrite (getBundlr_memo s b Hs). reflexivity.
  - rewrite (getBundlr_init s Hs). cbv zeta.
    destruct (client_getBundlerAddress _ _ _) as [[a|e] w1].
    + destruct (instanceof_WebBundlr _).
      * destruct (client_ready _ _) as [[u|e] w2]; simpl;
          rewrite ?Hstore, !Hlog by reflexivity; reflexivity.
      * simpl. rewrite ?Hstore, !Hlog by reflexivity. reflexivity.
    + simpl. rewrite !Hlog by reflexivity. reflexivity.
Qed.

Ltac frames_step :=
  first [ apply frames_ret | apply frames_throw | apply frames_get_driver
        | apply frames_getBundlr
        | apply frames_invoke; reflexivity
        | apply frames_if
        | apply frames_bind; [|intro] ].

Lemma frames_getBalance : frames f getBalance.
Proof. unfold getBalance. repeat frames_step. Qed.

Lemma frames_getMultipliedPrice : forall bytes, frames f (getMultipliedPrice bytes).
Proof. intro bytes. unfold getMultipliedPrice. repeat frames_step. Qed.

Lemma frames_getPrice : forall files, frames f (getPrice files).
Proof.
  intro files. unfold getPrice.
  apply frames_bind; [apply frames_getMultipliedPrice|intro; apply frames_ret].
Qed.

Lemma frames_fundingNeeded : forall fb skip, frames f (fundingNeeded fb skip).
Proof.
  intros fb skip. unfold fundingNeeded.
  apply frames_bind; [apply frames_getMultipliedPrice|intro price].
  repeat frames_step.
Qed.

Lemma frames_needsFunding : forall fb skip, frames f (needsFunding fb skip).
Proof.
  intros fb skip. unfold needsFunding.
  apply frames_bind; [apply frames_fundingNeeded|intro; apply frames_ret].
Qed.

Lemma frames_fund : forall fb skip, frames f (fund fb skip).
Proof.
  intros fb skip. unfold fund.
  apply frames_bind; [apply frames_getBundlr|intro b].
  apply frames_bind; [apply frames_fundingNeeded|intro needed].
  repeat frames_step.
Qed.

Lemma frames_uploadFiles_state :
  forall files s, f (snd (uploadFiles files s)) = f s.
Proof.
  induction files as [|file rest IH]; intro s; simpl; [reflexivity|].
  unfold uploadFile_promise.
  pose proof (frames_getBundlr s) as Hb.
  destruct (getBundlr s) as [[b|e] s1]; simpl in Hb.
  - destruct (client_upload b (toBuffer file) (getTagsWithContentType file) (network s1))
      as [r w].
    specialize (IH (log_call (Upload b (toBuffer file) (getTagsWithContentType file)) w s1)).
    destruct (uploadFiles rest _) as [ps s2]. simpl in *.
    rewrite IH, Hlog by reflexivity. exact Hb.
  - specialize (IH s1). destruct (uploadFiles rest s1) as [ps s2]. simpl in *.
    rewrite IH. exact Hb.
Qed.

Lemma frames_uploadFiles :
  forall files, frames f (fun s => let (ps, s') := uploadFiles files s in (Ok ps, s')).
Proof.
  intros files s. pose proof (frames_uploadFiles_state files s) as E.
  destruct (uploadFiles files s) as [ps s']. exact E.
Qed.

(** The methods that withdraw, for an [f] that no call changes. *)
Hypothesis Hall : forall c w s, f (log_call c w s) = f s.

Lemma frames_withdraw : forall amount, frames f (withdraw amount).
Proof.
  intro amount. unfold withdraw.
  apply frames_bind; [apply frames_getBundlr|intro b].
  apply frames_bind; [|intro; repeat frames_step].
  intro s. unfold invoke. destruct (client_withdrawBalance _ _ _) as [r w].
  simpl. apply Hall.
Qed.

Lemma frames_withdrawAll : frames f withdrawAll.
Proof.
  unfold withdrawAll.
  apply frames_bind; [apply frames_getBalance|intro balance].
  apply frames_if; [apply frames_ret|apply frames_withdraw].
Qed.

Lemma frames_uploadAll : forall files, frames f (uploadAll files).
Proof.
  intro files. unfold uploadAll.
  apply frames_bind; [apply frames_fund|intros _].
  apply frames_bind; [apply frames_uploadFiles|intro promises].
  apply frames_bind; [intro s; reflexivity|intro uris].
  unfold shouldWithdrawAfterUploading.
  apply frames_bind; [repeat frames_step|intro flag].
  apply frames_bind; [|intro; apply frames_ret].
  apply frames_if; [apply frames_withdrawAll|apply frames_ret].
Qed.

Lemma frames_upload : forall file, frames f (upload file).
Proof.
  intro file. unfold upload.
  apply frames_bind; [apply frames_uploadAll|intro; apply frames_ret].
Qed.

End Frame.

Lemma withdrawals_log_call :
  forall c (w : W) s,
    is_withdrawal c = false ->
    withdrawals (calls (log_call c w s)) = withdrawals (calls s).
Proof.
  intros c w s Hc. simpl. rewrite withdrawals_app.
  destruct c; simpl in *; try discriminate; apply app_nil_r.
Qed.

(** X1. Whatever methods of the driver are called, and whether they return
    or throw, the options stay those the driver had, and the flag
    [_withdrawAfterUploading] is what the last toggle called set it to (what
    it was, when no toggle was called). *)
Theorem driver_configuration_fixed :
  forall (ops : list Op) (s : State W),
    options (driver (run_ops ops s)) = options (driver s) /\
    _withdrawAfterUploading (driver (run_ops ops s))
      = flag_after ops (_withdrawAfterUploading (driver s)).
Proof.
  assert (Hop : forall op (s : State W),
             options (driver (run_op op s)) = options (driver s) /\
             _withdrawAfterUploading (driver (run_op op s))
               = toggled op (_withdrawAfterUploading (driver s))).
  { intros op s.
    set (f := fun st : State W =>
                (options (driver st), _withdrawAfterUploading (driver st))).
    assert (Hlog : forall c w st, is_withdrawal c = false -> f (log_call c w st) = f st)
      by reflexivity.
    assert (Hstore : forall b st, f (store_bundlr b st) = f st) by reflexivity.
    assert (Hall : forall c w st, f (log_call c w st) = f st) by reflexivity.
    assert (Hf : forall st st' : State W,
               f st' = f st ->
               options (driver st') = options (driver st) /\
               _withdrawAfterUploading (driver st') = _withdrawAfterUploading (driver st)).
    { intros st st' E. unfold f in E. injection E as E1 E2. split; assumption. }
    destruct op; cbn [run_op toggled]; try (split; reflexivity); apply Hf.
    - apply (frames_getBalance f Hlog Hstore).
    - apply (frames_getPrice f Hlog Hstore).
    - apply (frames_upload f Hlog Hstore Hall).
    - apply (frames_uploadAll f Hlog Hstore Hall).
    - apply (frames_fundingNeeded f Hlog Hstore).
    - apply (frames_needsFunding f Hlog Hstore).
    - apply (frames_fund f Hlog Hstore).
    - apply (frames_withdrawAll f Hlog Hstore Hall).
    - apply (frames_withdraw f Hlog Hstore Hall).
    - apply (frames_getBundlr f Hlog Hstore). }
  intros ops. unfold run_ops, flag_after.
  induction ops as [|op rest IH]; intro s; simpl; [split; reflexivity|].
  destruct (IH (run_op op s)) as [Eo Ef]. destruct (Hop op s) as [Eo' Ef'].
  rewrite Eo, Ef, Eo', Ef'. split; reflexivity.
Qed.

(** X2. With the flag off, [uploadAll] makes no withdrawal call, whatever
    the files, the balance and the answers of the network. *)
Theorem uploadAll_flag_off_no_withdrawal :
  forall (files : list MetaplexFile) (s : State W),
    _withdrawAfterUploading (driver s) = false ->
    withdrawals (calls (snd (uploadAll files s))) = withdrawals (calls s).
Proof.
  intros files s Hflag.
  set (fw := fun st : State W => withdrawals (calls st)).
  set (ff := fun st : State W => _withdrawAfterUploading (driver st)).
  assert (Hw : forall c w st, is_withdrawal c = false -> fw (log_call c w st) = fw st)
    by (intros; apply withdrawals_log_call; assumption).
  assert (Hws : forall b st, fw (store_bundlr b st) = fw st) by reflexivity.
  assert (Hf : forall c w st, is_withdrawal c = false -> ff (log_call c w st) = ff st)
    by reflexivity.
  assert (Hfs : forall b st, ff (store_bundlr b st) = ff st) by reflexivity.
  pose proof (frames_fund fw Hw Hws (Files files) false s) as E1.
  pose proof (frames_fund ff Hf Hfs (Files files) false s) as F1.
  unfold uploadAll. unfold mbind at 1.
  destruct (fund (Files files) false s) as [[u|e] s1]; simpl in E1, F1; [|exact E1].
  pose proof (frames_uploadFiles_state fw Hw Hws files s1) as E2.
  pose proof (frames_uploadFiles_state ff Hf Hfs files s1) as F2.
  unfold mbind at 1. destruct (uploadFiles files s1) as [ps s2]. simpl in E2, F2.
  unfold mbind at 1. destruct (Promise_all ps) as [uris|e]; simpl.
  - unfold shouldWithdrawAfterUploading, mbind, get_driver, ret. simpl.
    unfold ff in F1, F2. rewrite F2, F1, Hflag. simpl.
    unfold fw in E1, E2. rewrite E2. exact E1.
  - unfold fw in E1, E2. rewrite E2. exact E1.
Qed.

(** ** Withdrawing and funding, call by call *)

Lemma withdraw_run :
  forall amount (s : State W) b,
    bundlr (driver s) = Some b ->
    withdraw amount s =
      (match fst (client_withdrawBalance b amount (network s)) with
       | Returned status =>
           if 300 <=? status then Fail (BundlrWithdrawError status) else Ok tt
       | Threw e => Fail (ClientFailure e)
       end,
       log_call (WithdrawBalance b amount)
                (snd (client_withdrawBalance b amount (network s))) s).
Proof.
  intros amount s b Hb. unfold withdraw.
  rewrite (mbind_ok _ _ _ _ _ _ _ (getBundlr_memo s b Hb)).
  unfold mbind, invoke.
  destruct (client_withdrawBalance b amount (network s)) as [[status|e] w]; simpl;
    [destruct (300 <=? status)|]; reflexivity.
Qed.

Lemma withdrawAll_run :
  forall (s : State W) b balance w1,
    bundlr (driver s) = Some b ->
    client_getLoadedBalance b (network s) = (Returned balance, w1) ->
    withdrawAll s =
      if Qle_bool (inject_Z 5000) balance
      then withdraw (balance - inject_Z 5000)%Q (log_call (GetLoadedBalance b) w1 s)
      else (Ok tt, log_call (GetLoadedBalance b) w1 s).
Proof.
  intros s b balance w1 Hb Ebal.
  assert (Egb : getBalance s
                = (Ok (fromLamports balance), log_call (GetLoadedBalance b) w1 s)).
  { unfold getBalance. rewrite (mbind_ok _ _ _ _ _ _ _ (getBundlr_memo s b Hb)).
    rewrite (mbind_ok _ _ _ _ _ _ _ (invoke_returned _ _ _ _ _ _ Ebal)). reflexivity. }
  unfold withdrawAll. rewrite (mbind_ok _ _ _ _ _ _ _ Egb).
  unfold amount_isLessThan, isLessThan, minimumBalance, fromLamports,
    getLamports, amount_minus, minus. cbn [lamports].
  destruct (Qle_bool (inject_Z 5000) balance); reflexivity.
Qed.

(** A method that starts with [getBundlr] goes on from the state
    [getBundlr] leaves. *)
Lemma after_getBundlr :
  forall A (k : BundlrHandle -> M W A) (s : State W) b s1,
    getBundlr s = (Ok b, s1) ->
    mbind getBundlr k s = mbind getBundlr k s1.
Proof.
  intros A k s b s1 Eb.
  rewrite (mbind_ok _ _ _ _ _ _ _ Eb).
  rewrite (mbind_ok _ _ _ _ _ _ _ (getBundlr_memo s1 b (getBundlr_stores s b s1 Eb))).
  reflexivity.
Qed.

(** X3. [withdraw] hands the amount as it is to the client, in one call:
    a status below 300 is a success, a status of 300 or more throws
    BundlrWithdrawError with that status, and a throw of the client comes
    out as it is. *)
Theorem withdraw_status :
  forall (amount : BigNumber) (s : State W) b s1,
    getBundlr s = (Ok b, s1) ->
    (forall status w,
       client_withdrawBalance b amount (network s1) = (Returned status, w) ->
       (status < 300 ->
          withdraw amount s = (Ok tt, log_call (WithdrawBalance b amount) w s1)) /\
       (300 <= status ->
          withdraw amount s
            = (Fail (BundlrWithdrawError status), log_call (WithdrawBalance b amount) w s1))) /\
    (forall e w,
       client_withdrawBalance b amount (network s1) = (Threw e, w) ->
       withdraw amount s
         = (Fail (ClientFailure e), log_call (WithdrawBalance b amount) w s1)).
Proof.
  intros amount s b s1 Eb.
  assert (E : withdraw amount s = withdraw amount s1)
    by (unfold withdraw; exact (after_getBundlr _ _ s b s1 Eb)).
  rewrite E, (withdraw_run amount s1 b (getBundlr_stores s b s1 Eb)).
  split.
  - intros status w Ew. rewrite Ew. simpl. split; intro Hs.
    + destruct (Z.leb_spec 300 status); [lia|reflexivity].
    + destruct (Z.leb_spec 300 status); [reflexivity|lia].
  - intros e w Ew. rewrite Ew. reflexivity.
Qed.

(** X4. The URIs are lost when the withdrawal after the uploads is refused:
    the batch funded, every upload accepted, the flag on and the balance at
    5000 or more, a withdrawal answered with a status of 300 or more makes
    [uploadAll] throw BundlrWithdrawError with that status. *)
Theorem uploadAll_withdrawal_refused :
  forall (files : list MetaplexFile) (s s1 : State W) b balance w3 status w4,
    fund (Files files) false s = (Ok tt, s1) ->
    bundlr (driver s1) = Some b ->
    (forall r, In r (fst (upload_replies b files (network s1))) -> accepted r = true) ->
    _withdrawAfterUploading (driver s1) = true ->
    client_getLoadedBalance b (snd (upload_replies b files (network s1)))
      = (Returned balance, w3) ->
    (inject_Z 5000 <= balance)%Q ->
    client_withdrawBalance b (balance - inject_Z 5000)%Q w3 = (Returned status, w4) ->
    300 <= status ->
    fst (uploadAll files s) = Fail (BundlrWithdrawError status).
Proof.
  intros files s s1 b balance w3 status w4 Ef Hb Hall Hflag Ebal Hbal Ew Hs.
  rewrite (uploadAll_after_fund files s s1 b Ef Hb). cbv zeta.
  destruct (Promise_all_accepted _ Hall) as (uris & Hp & _). rewrite Hp, Hflag.
  set (s2 := {| driver := driver s1;
                network := snd (upload_replies b files (network s1));
                calls := calls s1 ++ map (upload_call b) files |}).
  assert (Hb2 : bundlr (driver s2) = Some b) by exact Hb.
  assert (Ebal2 : client_getLoadedBalance b (network s2) = (Returned balance, w3))
    by exact Ebal.
  rewrite (withdrawAll_run s2 b balance w3 Hb2 Ebal2).
  assert (Ecmp : Qle_bool (inject_Z 5000) balance = true)
    by (apply Qle_bool_iff; exact Hbal).
  rewrite Ecmp.
  rewrite (withdraw_run _ (log_call (GetLoadedBalance b) w3 s2) b Hb2).
  cbn [network log_call]. rewrite Ew. simpl.
  destruct (Z.leb_spec 300 status); [reflexivity|lia].
Qed.

(** X5. [fund] without skipping the balance check: when the balance covers
    the marked-up price it deposits nothing; when the balance is below the
    price it asks the client, once, to deposit the price minus the balance,
    and a throw of the client there comes out as it is, unwrapped. *)
Theorem fund_deposit :
  forall (filesOrBytes : FilesOrBytes) (s : State W) b s1 p w1 balance w2,
    getBundlr s = (Ok b, s1) ->
    client_getPrice b (getBytes filesOrBytes) (network s1) = (Returned p, w1) ->
    client_getLoadedBalance b w1 = (Returned balance, w2) ->
    let price :=
      decimalPlaces0
        (multipliedBy p (undefined_or (priceMultiplier (options (driver s))) (3 # 2))) in
    let s3 := log_call (GetLoadedBalance b) w2
                (log_call (GetPrice b (getBytes filesOrBytes)) w1 s1) in
    ((price <= balance)%Q -> fund filesOrBytes false s = (Ok tt, s3)) /\
    ((balance < price)%Q ->
       (forall u w4,
          client_fund b (price - balance)%Q w2 = (Returned u, w4) ->
          fund filesOrBytes false s
            = (Ok u, log_call (FundCall b (price - balance)%Q) w4 s3)) /\
       (forall e w4,
          client_fund b (price - balance)%Q w2 = (Threw e, w4) ->
          fund filesOrBytes false s
            = (Fail (ClientFailure e), log_call (FundCall b (price - balance)%Q) w4 s3))).
Proof.
  intros fb s b s1 p w1 balance w2 Eb Ep Ebal price s3.
  destruct (fund_shortfall fb s b s1 p w1 balance w2 Eb Ep Ebal) as [Hcov Hshort].
  fold price s3 in Hcov, Hshort. split; [exact Hcov|].
  intro Hlt. rewrite (Hshort Hlt). split.
  - intros u w4 Ec. apply invoke_returned. exact Ec.
  - intros e w4 Ec. apply invoke_threw. exact Ec.
Qed.

(** X6. [needsFunding] answers true exactly when there is something to
    deposit: without the balance check skipped, when the balance is below
    the marked-up price; with it skipped, when the marked-up price is above
    zero. *)
Theorem needsFunding_answer :
  forall (filesOrBytes : FilesOrBytes) (s : State W) b s1 p w1,
    getBundlr s = (Ok b, s1) ->
    client_getPrice b (getBytes filesOrBytes) (network s1) = (Returned p, w1) ->
    let price :=
      decimalPlaces0
        (multipliedBy p (undefined_or (priceMultiplier (options (driver s))) (3 # 2))) in
    let s2 := log_call (GetPrice b (getBytes filesOrBytes)) w1 s1 in
    (exists answer,
       needsFunding filesOrBytes true s = (Ok answer, s2) /\
       (answer = true <-> (0 < price)%Q)) /\
    (forall balance w2,
       client_getLoadedBalance b w1 = (Returned balance, w2) ->
       exists answer,
         needsFunding filesOrBytes false s
           = (Ok answer, log_call (GetLoadedBalance b) w2 s2) /\
         (answer = true <-> (balance < price)%Q)).
Proof.
  intros fb s b s1 p w1 Eb Ep price s2.
  assert (Hgt : forall x y, isGreaterThan x y = true <-> (y < x)%Q).
  { intros x y. unfold isGreaterThan. split; intro Hxy.
    - apply Qnot_le_lt. intro Hle. apply Qle_bool_iff in Hle.
      rewrite Hle in Hxy. discriminate.
    - destruct (Qle_bool x y) eqn:E; [|reflexivity].
      apply Qle_bool_iff in E. lra. }
  split.
  - exists (isGreaterThan price 0%Q). split; [|apply Hgt].
    pose proof (getMultipliedPrice_run _ _ _ _ _ _ Eb Ep) as Em. fold price s2 in Em.
    assert (En : fundingNeeded fb true s = (Ok price, s2)).
    { unfold fundingNeeded. rewrite (mbind_ok _ _ _ _ _ _ _ Em). reflexivity. }
    unfold needsFunding. rewrite (mbind_ok _ _ _ _ _ _ _ En). reflexivity.
  - intros balance w2 Ebal.
    exists (isGreaterThan (if isGreaterThan price balance
                           then minus price balance else 0%Q) 0%Q).
    split.
    + unfold needsFunding.
      rewrite (mbind_ok _ _ _ _ _ _ _
                 (fundingNeeded_run fb s b s1 p w1 balance w2 Eb Ep Ebal)).
      reflexivity.
    + rewrite Hgt. destruct (isGreaterThan price balance) eqn:E.
      * apply Hgt in E. unfold minus. split; intro; lra.
      * assert (Hle : ~ (balance < price)%Q).
        { intro Hlt. apply Hgt in Hlt. congruence. }
        split; intro Hx; [lra|contradiction].
Qed.

(** ** Files or a byte count; quoting a price *)

(** X7. A list of files and the number of bytes they hold in all are the
    same argument to [fundingNeeded], [needsFunding] and [fund]: same
    result, same calls to the client. *)
Theorem files_as_bytes :
  forall (files : list MetaplexFile) (skipBalanceCheck : bool) (s : State W),
    fundingNeeded (Files files) skipBalanceCheck s
      = fundingNeeded (Bytes (total_bytes files)) skipBalanceCheck s /\
    needsFunding (Files files) skipBalanceCheck s
      = needsFunding (Bytes (total_bytes files)) skipBalanceCheck s /\
    fund (Files files) skipBalanceCheck s
      = fund (Bytes (total_bytes files)) skipBalanceCheck s.
Proof.
  intros files skip s.
  assert (E : getBytes (Files files) = getBytes (Bytes (total_bytes files)))
    by (rewrite getBytes_Files; reflexivity).
  unfold fund, needsFunding, fundingNeeded. rewrite E. repeat split.
Qed.

(** X8. The price [getPrice] quotes for files is the funding
    [fundingNeeded] asks for them with the balance check skipped, as an
    amount of lamports: same calls, same failures. *)
Theorem getPrice_is_funding_unchecked :
  forall (files : list MetaplexFile) (s : State W),
    getPrice files s =
      (match fst (fundingNeeded (Files files) true s) with
       | Ok price => Ok (fromLamports price)
       | Fail e => Fail e
       end,
       snd (fundingNeeded (Files files) true s)).
Proof.
  intros files s. unfold getPrice, fundingNeeded, mbind.
  destruct (getMultipliedPrice (getBytes (Files files)) s) as [[price|e] s1];
    reflexivity.
Qed.

Lemma round_half_up_ge :
  forall (n : Z) (q : Q), 0 <= n -> (inject_Z n <= q)%Q -> n <= round_half_up q.
Proof.
  intros n q Hn Hq. unfold round_half_up.
  assert (H0 : (0 <= q)%Q).
  { apply Qle_trans with (inject_Z n); [|exact Hq].
    change 0%Q with (inject_Z 0). rewrite <- Zle_Qle. exact Hn. }
  apply Qle_bool_iff in H0. rewrite H0.
  rewrite <- (Qfloor_Z n). apply Qfloor_resp_le. lra.
Qed.

(** X9. With a multiplier of 1 or more, as the default 1.5 is, the
    marked-up price is never below the price of the network, when that price
    is a whole, non-negative number of lamports. *)
Theorem marked_up_price_covers_price :
  forall (bytes : Z) (s : State W) b s1 (n : Z) w1,
    getBundlr s = (Ok b, s1) ->
    client_getPrice b bytes (network s1) = (Returned (inject_Z n), w1) ->
    0 <= n ->
    (1 <= undefined_or (priceMultiplier (options (driver s))) (3 # 2))%Q ->
    exists price,
      getMultipliedPrice bytes s = (Ok price, log_call (GetPrice b bytes) w1 s1) /\
      (inject_Z n <= price)%Q.
Proof.
  intros bytes s b s1 n w1 Eb Ep Hn Hm.
  rewrite (getMultipliedPrice_run _ _ _ _ _ _ Eb Ep).
  eexists. split; [reflexivity|].
  unfold decimalPlaces0, multipliedBy. rewrite <- Zle_Qle.
  apply round_half_up_ge; [exact Hn|].
  set (m := undefined_or (priceMultiplier (options (driver s))) (3 # 2)) in *.
  assert (H0 : (0 <= inject_Z n)%Q).
  { change 0%Q with (inject_Z 0). rewrite <- Zle_Qle. exact Hn. }
  assert (Hp : (0 <= inject_Z n * (m - 1))%Q)
    by (apply Qmult_le_0_compat; lra).
  lra.
Qed.

(** ** Connecting *)

Lemma getBundlr_fails_unstored :
  forall (s : State W) e s1,
    getBundlr s = (Fail e, s1) ->
    bundlr (driver s) = None /\ driver s1 = driver s.
Proof.
  intros s e s1 E. destruct (bundlr (driver s)) as [b|] eqn:Hs.
  - rewrite (getBundlr_memo s b Hs) in E. discriminate.
  - split; [reflexivity|]. rewrite (getBundlr_init s Hs) in E. cbv zeta in E.
    destruct (client_getBundlerAddress _ _ _) as [[a|e0] w1].
    + destruct (instanceof_WebBundlr _); [|discriminate].
      destruct (client_ready _ _) as [[u|e0] w2]; [discriminate|].
      inversion E; subst. reflexivity.
    + inversion E; subst. reflexivity.
Qed.

Lemma getBundlr_constructs :
  forall (s : State W),
    bundlr (driver s) = None ->
    exists checks,
      calls (snd (getBundlr s))
        = (calls s ++ NewBundlr (construct_client (driver s)) :: checks)%list.
Proof.
  intros s Hs. rewrite (getBundlr_init s Hs). cbv zeta.
  destruct (client_getBundlerAddress _ _ _) as [[a|e0] w1].
  - destruct (instanceof_WebBundlr _).
    + destruct (client_ready _ _) as [[u|e0] w2]; simpl;
        eexists; rewrite <- !app_assoc; simpl; reflexivity.
    + simpl. eexists. rewrite <- !app_assoc. simpl. reflexivity.
  - simpl. eexists. rewrite <- !app_assoc. simpl. reflexivity.
Qed.

Lemma getBundlr_fresh :
  forall (s : State W) b s1,
    bundlr (driver s) = None -> getBundlr s = (Ok b, s1) ->
    b = construct_client (driver s).
Proof.
  intros s b s1 Hs E. rewrite (getBundlr_init s Hs) in E. cbv zeta in E.
  destruct (client_getBundlerAddress _ _ _) as [[a|e0] w1]; [|discriminate].
  destruct (instanceof_WebBundlr _).
  - destruct (client_ready _ _) as [[u|e0] w2]; [|discriminate].
    inversion E; subst. reflexivity.
  - inversion E; subst. reflexivity.
Qed.

(** X10. A [getBundlr] that fails stores nothing: the driver is as it was,
    without a client, and the next call of [getBundlr] starts over by
    constructing a client again. *)
Theorem failed_connection_not_stored :
  forall (s : State W) e s1,
    getBundlr s = (Fail e, s1) ->
    bundlr (driver s1) = None /\
    driver s1 = driver s /\
    exists checks,
      calls (snd (getBundlr s1))
        = (calls s1 ++ NewBundlr (construct_client (driver s)) :: checks)%list.
Proof.
  intros s e s1 E. destruct (getBundlr_fails_unstored s e s1 E) as [Hs Hd].
  assert (Hs1 : bundlr (driver s1) = None) by (rewrite Hd; exact Hs).
  split; [exact Hs1|]. split; [exact Hd|].
  rewrite <- Hd. apply getBundlr_constructs. exact Hs1.
Qed.

(** X11. When the client cannot be set up, every method that needs it
    throws what [getBundlr] throws and does nothing else: no price or
    balance is asked, nothing is deposited, uploaded or withdrawn. *)
Theorem connection_failure_surfaces :
  forall (s : State W) e s1,
    getBundlr s = (Fail e, s1) ->
    getBalance s = (Fail e, s1) /\
    (forall files, getPrice files s = (Fail e, s1)) /\
    (forall fb skip, fundingNeeded fb skip s = (Fail e, s1)) /\
    (forall fb skip, needsFunding fb skip s = (Fail e, s1)) /\
    (forall fb skip, fund fb skip s = (Fail e, s1)) /\
    (forall amount, withdraw amount s = (Fail e, s1)) /\
    withdrawAll s = (Fail e, s1) /\
    (forall files, uploadAll files s = (Fail e, s1)) /\
    (forall file, upload file s = (Fail e, s1)).
Proof.
  intros s e s1 E.
  repeat split; intros;
    unfold upload, uploadAll, withdrawAll, withdraw, fund, needsFunding,
      fundingNeeded, getPrice, getMultipliedPrice, getBalance;
    repeat first [exact E | apply mbind_fail].
Qed.

(** X12. The first client of a driver is constructed from the options
    object the constructor was given: the address in it, or
    'https://node1.bundlr.network' when it has none; the currency 'solana';
    for the provider URL, the RPC endpoint of the connection when the
    options object has no [providerUrl] property, and otherwise what that
    property holds, [undefined] included; the timeout in it; the
    direct-signing variant for a keypair identity and the delegated-signing
    variant for any other. *)
Theorem first_client_configuration :
  forall (mx : Metaplex) (opts : OptionsObject) (w : W) b s1,
    getBundlr {| driver := new_BundlrStorageDriver mx opts; network := w; calls := [] |}
      = (Ok b, s1) ->
    handle_address b
      = undefined_or (read_property (own_address opts)) "https://node1.bundlr.network" /\
    handle_currency b = "solana" /\
    client_providerUrl (handle_options b)
      = match own_providerUrl opts with
        | Absent => Defined (rpcEndpoint mx)
        | Present v => v
        end /\
    client_timeout (handle_options b) = read_property (own_timeout opts) /\
    instanceof_WebBundlr b
      = match identity mx with
        | KeypairIdentityDriver _ => false
        | _ => true
        end.
Proof.
  intros mx opts w b s1 E.
  rewrite (getBundlr_fresh
             {| driver := new_BundlrStorageDriver mx opts; network := w; calls := [] |}
             b s1 eq_refl E).
  unfold construct_client, bundlr_address. simpl.
  destruct (identity mx); repeat split.
Qed.

(** ** What a successful batch means *)

Lemma Promise_all_ok :
  forall replies uris,
    Promise_all (map promise_of_reply replies) = Ok uris ->
    (forall r, In r replies -> accepted r = true) /\ Forall2 uri_for replies uris.
Proof.
  intros replies uris E.
  assert (Hall : forall r, In r replies -> accepted r = true).
  { intros r Hr. unfold Promise_all in E.
    destruct (first_rejection (map promise_of_reply replies)) as [[t e]|] eqn:Ef;
      [discriminate|].
    pose proof (first_rejection_None _ _ Ef (promise_of_reply r)) as Hno.
    destruct r as [t [resp|e]]; unfold accepted; simpl in *.
    - destruct (Z.leb_spec 300 (upload_status resp)) as [Hge|Hlt].
      + exfalso. apply (Hno (AssetUploadFailedError (upload_status resp))).
        * apply (in_map promise_of_reply _ _ Hr).
        * reflexivity.
      + apply Z.ltb_lt. exact Hlt.
    - exfalso. apply (Hno (ClientFailure e)).
      + apply (in_map promise_of_reply _ _ Hr).
      + reflexivity. }
  split; [exact Hall|].
  destruct (Promise_all_accepted replies Hall) as (uris' & E' & HF).
  rewrite E in E'. injection E' as <-. exact HF.
Qed.

Lemma uploadAll_ok_inv :
  forall files (s : State W) uris s',
    uploadAll files s = (Ok uris, s') ->
    exists s1 b,
      fund (Files files) false s = (Ok tt, s1) /\
      bundlr (driver s1) = Some b /\
      (forall r, In r (fst (upload_replies b files (network s1))) -> accepted r = true) /\
      Forall2 uri_for (fst (upload_replies b files (network s1))) uris.
Proof.
  intros files s uris s' E.
  assert (Ef : exists s1, fund (Files files) false s = (Ok tt, s1)).
  { unfold uploadAll in E. apply mbind_inv_ok in E.
    destruct E as ([] & s1 & Ef & _). exists s1. exact Ef. }
  destruct Ef as [s1 Ef]. destruct (fund_stores _ _ _ _ Ef) as [b Hb].
  exists s1, b. split; [exact Ef|]. split; [exact Hb|].
  rewrite (uploadAll_after_fund files s s1 b Ef Hb) in E. cbv zeta in E.
  destruct (Promise_all (map promise_of_reply (fst (upload_replies b files (network s1)))))
    as [uris0|e0] eqn:Ep; [|discriminate].
  assert (uris0 = uris).
  { destruct (_withdrawAfterUploading (driver s1)).
    - destruct (withdrawAll _) as [[u|e1] s3]; [|discriminate].
      inversion E; reflexivity.
    - inversion E; reflexivity. }
  subst uris0. apply Promise_all_ok. exact Ep.
Qed.

(** X13. [uploadAll] returns URIs only when the funding went through and
    the network accepted every upload, with a status below 300: the URIs are
    then as many as the files, each the gateway prefix followed by the
    identifier returned for the file at its place. *)
Theorem uploadAll_success_means_all_accepted :
  forall (files : list MetaplexFile) (s : State W) uris s',
    uploadAll files s = (Ok uris, s') ->
    List.length uris = List.length files /\
    exists s1 b,
      fund (Files files) false s = (Ok tt, s1) /\
      bundlr (driver s1) = Some b /\
      (forall r, In r (fst (upload_replies b files (network s1))) -> accepted r = true) /\
      Forall2 uri_for (fst (upload_replies b files (network s1))) uris.
Proof.
  intros files s uris s' E.
  destruct (uploadAll_ok_inv files s uris s' E) as (s1 & b & Ef & Hb & Hall & HF).
  split.
  - rewrite <- (Forall2_length HF). apply upload_replies_length.
  - exists s1, b. auto.
Qed.

(** X14. [upload] of a file is [uploadAll] of that file alone: it returns
    the one URI [uploadAll] returns, throws what [uploadAll] throws, and
    leaves the same state. *)
Theorem upload_single :
  forall (file : MetaplexFile) (s : State W),
    (forall uri s', upload file s = (Ok uri, s') <-> uploadAll [file] s = (Ok [uri], s')) /\
    (forall e s', upload file s = (Fail e, s') <-> uploadAll [file] s = (Fail e, s')).
Proof.
  intros file s. unfold upload, mbind.
  destruct (uploadAll [file] s) as [[uris|e0] s0] eqn:E.
  - destruct (uploadAll_ok_inv [file] s uris s0 E) as (s1 & b & _ & _ & _ & HF).
    pose proof (Forall2_length HF) as Hlen.
    rewrite upload_replies_length in Hlen. simpl in Hlen.
    destruct uris as [|u [|u' rest]]; try discriminate.
    unfold ret. simpl. split.
    + intros uri s'. split; intro Hx; inversion Hx; reflexivity.
    + intros e s'. split; intro Hx; discriminate.
  - split.
    + intros uri s'. split; intro Hx; discriminate.
    + intros e s'. split; intro Hx; inversion Hx; reflexivity.
Qed.

(** ** The order of the calls of a batch *)

Lemma withdrawAll_appends :
  forall (s : State W) b,
    bundlr (driver s) = Some b ->
    exists rest, calls (snd (withdrawAll s)) = (calls s ++ rest)%list.
Proof.
  intros s b Hb.
  destruct (client_getLoadedBalance b (network s)) as [[balance|e] w1] eqn:Ebal.
  - rewrite (withdrawAll_run s b balance w1 Hb Ebal).
    destruct (Qle_bool (inject_Z 5000) balance).
    + rewrite (withdraw_run _ (log_call (GetLoadedBalance b) w1 s) b Hb).
      simpl. eexists. rewrite <- app_assoc. reflexivity.
    + simpl. eexists. reflexivity.
  - unfold withdrawAll, getBalance.
    assert (Egb : mbind getBundlr
                    (fun b0 => mbind (invoke (GetLoadedBalance b0) (client_getLoadedBalance b0))
                                     (fun balance => ret (fromLamports balance))) s
                  = (Fail (ClientFailure e), log_call (GetLoadedBalance b) w1 s)).
    { rewrite (mbind_ok _ _ _ _ _ _ _ (getBundlr_memo s b Hb)).
      apply mbind_fail. apply invoke_threw. exact Ebal. }
    rewrite (mbind_fail _ _ _ _ _ _ _ Egb). simpl. eexists. reflexivity.
Qed.

(** X20. A batch whose marked-up price the balance does not cover: the
    calls [uploadAll] makes, once the client is there, are, in this order,
    the price of the bytes of all the files together, the balance, one
    deposit of the price minus the balance, then one upload per file in the
    order of the files; whatever follows comes after these. *)
Theorem uploadAll_call_order :
  forall (files : list MetaplexFile) (s : State W) b s1 p w1 balance w2 w3,
    getBundlr s = (Ok b, s1) ->
    client_getPrice b (total_bytes files) (network s1) = (Returned p, w1) ->
    client_getLoadedBalance b w1 = (Returned balance, w2) ->
    let price :=
      decimalPlaces0
        (multipliedBy p (undefined_or (priceMultiplier (options (driver s))) (3 # 2))) in
    (balance < price)%Q ->
    client_fund b (price - balance)%Q w2 = (Returned tt, w3) ->
    exists rest,
      calls (snd (uploadAll files s))
        = (calls s1
           ++ [GetPrice b (total_bytes files); GetLoadedBalance b;
               FundCall b (price - balance)%Q]
           ++ map (upload_call b) files ++ rest)%list.
Proof.
  intros files s b s1 p w1 balance w2 w3 Eb Ep Ebal price Hlt Ef.
  rewrite <- getBytes_Files in Ep.
  destruct (fund_shortfall (Files files) s b s1 p w1 balance w2 Eb Ep Ebal) as [_ K].
  fold price in K. specialize (K Hlt).
  rewrite (invoke_returned unit (FundCall b (price - balance)%Q)
             (client_fund b (price - balance)%Q)
             (log_call (GetLoadedBalance b) w2
                (log_call (GetPrice b (getBytes (Files files))) w1 s1))
             tt w3 Ef) in K.
  rewrite getBytes_Files in K.
  set (s4 := log_call (FundCall b (price - balance)%Q) w3
               (log_call (GetLoadedBalance b) w2
                  (log_call (GetPrice b (total_bytes files)) w1 s1))) in K.
  assert (Hb4 : bundlr (driver s4) = Some b)
    by (subst s4; simpl; exact (getBundlr_stores s b s1 Eb)).
  rewrite (uploadAll_after_fund files s s4 b K Hb4). cbv zeta.
  set (s2 := {| driver := driver s4;
                network := snd (upload_replies b files (network s4));
                calls := calls s4 ++ map (upload_call b) files |}).
  assert (Hc2 : calls s2
                = (calls s1
                   ++ [GetPrice b (total_bytes files); GetLoadedBalance b;
                       FundCall b (price - balance)%Q]
                   ++ map (upload_call b) files)%list).
  { subst s2 s4. simpl. rewrite <- !app_assoc. reflexivity. }
  assert (Hb2 : bundlr (driver s2) = Some b) by exact Hb4.
  destruct (withdrawAll_appends s2 b Hb2) as [rest Hrest].
  destruct (Promise_all _) as [uris|e].
  - destruct (_withdrawAfterUploading (driver s4)).
    + exists rest.
      assert (Hs : forall (r : Res unit * State W),
                 snd (match r with
                      | (Ok _, s3) => (Ok uris, s3)
                      | (Fail e, s3) => (Fail e, s3)
                      end) = snd r)
        by (intros [[u|e] s3]; reflexivity).
      rewrite Hs, Hrest, Hc2. rewrite <- !app_assoc. reflexivity.
    + exists []. simpl snd. rewrite Hc2, !app_nil_r. reflexivity.
  - exists []. simpl snd. rewrite Hc2, !app_nil_r. reflexivity.
Qed.

End Frames.

(** ** A batch from the funding on; calls of getBundlr that overlap *)

Section FundedBatch.
Context {W : Type} `{BundlrClient W}.
Local Open Scope driver_scope.








End FundedBatch.

(** ** The added properties on the small network *)

Lemma uploadAll_flag_off_no_withdrawal_witness :
  withdrawals
    (calls (snd (uploadAll sim_batch
                   (snd (dontWithdrawAfterUploading
                           (sim_state sim_keypair (sim_net 10000 sim_accepting)))))))
  = [].
Proof.
  exact (uploadAll_flag_off_no_withdrawal sim_batch
           (snd (dontWithdrawAfterUploading
                   (sim_state sim_keypair (sim_net 10000 sim_accepting))))
           eq_refl).
Defined.

Lemma withdraw_status_witness :
  fst (withdraw 100%Q (sim_state sim_keypair (sim_net 1000 []))) = Ok tt /\
  fst (withdraw 100%Q (sim_state sim_keypair (sim_stingy 1000 [])))
    = Fail (BundlrWithdrawError 500).
Proof.
  split.
  - set (s := sim_state sim_keypair (sim_net 1000 [])).
    assert (Eb : getBundlr s = (Ok node_client, snd (getBundlr s)))
      by (vm_compute; reflexivity).
    assert (Ew : client_withdrawBalance node_client 100%Q (network (snd (getBundlr s)))
                 = (Returned 200,
                    snd (client_withdrawBalance node_client 100%Q
                           (network (snd (getBundlr s))))))
      by (vm_compute; reflexivity).
    assert (Hs : 200 < 300) by (vm_compute; reflexivity).
    rewrite (proj1 (proj1 (withdraw_status 100%Q s node_client _ Eb) 200 _ Ew) Hs).
    reflexivity.
  - set (s := sim_state sim_keypair (sim_stingy 1000 [])).
    assert (Eb : getBundlr s = (Ok node_client, snd (getBundlr s)))
      by (vm_compute; reflexivity).
    assert (Ew : client_withdrawBalance node_client 100%Q (network (snd (getBundlr s)))
                 = (Returned 500,
                    snd (client_withdrawBalance node_client 100%Q
                           (network (snd (getBundlr s))))))
      by (vm_compute; reflexivity).
    assert (Hs : 300 <= 500) by (vm_compute; discriminate).
    rewrite (proj2 (proj1 (withdraw_status 100%Q s node_client _ Eb) 500 _ Ew) Hs).
    reflexivity.
Defined.

Lemma uploadAll_withdrawal_refused_witness :
  fst (uploadAll sim_batch (sim_state sim_keypair (sim_stingy 10000 sim_accepting)))
    = Fail (BundlrWithdrawError 500).
Proof.
  set (s := sim_state sim_keypair (sim_stingy 10000 sim_accepting)).
  set (s1 := snd (fund (Files sim_batch) false s)).
  set (w2 := snd (upload_replies node_client sim_batch (network s1))).
  set (w3 := snd (client_getLoadedBalance node_client w2)).
  set (w4 := snd (client_withdrawBalance node_client (10000 - inject_Z 5000)%Q w3)).
  apply (uploadAll_withdrawal_refused sim_batch s s1 node_client 10000%Q w3 500 w4).
  - vm_compute. reflexivity.
  - vm_compute. reflexivity.
  - intros r Hin. vm_compute in Hin. destruct Hin as [<-|[<-|[]]]; reflexivity.
  - vm_compute. reflexivity.
  - vm_compute. reflexivity.
  - vm_compute. discriminate.
  - vm_compute. reflexivity.
  - vm_compute. discriminate.
Defined.

Lemma fund_deposit_witness :
  deposits (calls (snd (fund (Bytes 100) false (sim_state sim_keypair (sim_net 40 [])))))
    = [110%Q] /\
  deposits (calls (snd (fund (Bytes 100) false (sim_state sim_keypair (sim_net 200 [])))))
    = [].
Proof.
  split.
  - set (s := sim_state sim_keypair (sim_net 40 [])).
    assert (Eb : getBundlr s = (Ok node_client, snd (getBundlr s)))
      by (vm_compute; reflexivity).
    assert (Ep : client_getPrice node_client (getBytes (Bytes 100))
                   (network (snd (getBundlr s)))
                 = (Returned (inject_Z 100 * 1)%Q, network (snd (getBundlr s))))
      by (vm_compute; reflexivity).
    assert (Ebal : client_getLoadedBalance node_client (network (snd (getBundlr s)))
                   = (Returned 40%Q, network (snd (getBundlr s))))
      by (vm_compute; reflexivity).
    pose proof (fund_deposit (Bytes 100) s node_client _ _ _ _ _ Eb Ep Ebal) as [_ K].
    cbv zeta in K.
    assert (Hlt : (40 < decimalPlaces0 (multipliedBy (inject_Z 100 * 1)
                     (undefined_or (priceMultiplier (options (driver s))) (3 # 2))))%Q)
      by (vm_compute; reflexivity).
    rewrite (proj1 (K Hlt) tt _ (surjective_pairing _)).
    vm_compute. reflexivity.
  - set (s := sim_state sim_keypair (sim_net 200 [])).
    assert (Eb : getBundlr s = (Ok node_client, snd (getBundlr s)))
      by (vm_compute; reflexivity).
    assert (Ep : client_getPrice node_client (getBytes (Bytes 100))
                   (network (snd (getBundlr s)))
                 = (Returned (inject_Z 100 * 1)%Q, network (snd (getBundlr s))))
      by (vm_compute; reflexivity).
    assert (Ebal : client_getLoadedBalance node_client (network (snd (getBundlr s)))
                   = (Returned 200%Q, network (snd (getBundlr s))))
      by (vm_compute; reflexivity).
    pose proof (fund_deposit (Bytes 100) s node_client _ _ _ _ _ Eb Ep Ebal) as [K _].
    cbv zeta in K.
    assert (Hle : (decimalPlaces0 (multipliedBy (inject_Z 100 * 1)
                     (undefined_or (priceMultiplier (options (driver s))) (3 # 2)))
                   <= 200)%Q)
      by (vm_compute; discriminate).
    rewrite (K Hle). vm_compute. reflexivity.
Defined.

Lemma needsFunding_answer_witness :
  fst (needsFunding (Bytes 100) false (sim_state sim_keypair (sim_net 40 []))) = Ok true /\
  fst (needsFunding (Bytes 100) true (sim_state sim_keypair (sim_net 40 []))) = Ok true.
Proof.
  set (s := sim_state sim_keypair (sim_net 40 [])).
  assert (Eb : getBundlr s = (Ok node_client, snd (getBundlr s)))
    by (vm_compute; reflexivity).
  assert (Ep : client_getPrice node_client (getBytes (Bytes 100))
                 (network (snd (getBundlr s)))
               = (Returned (inject_Z 100 * 1)%Q, network (snd (getBundlr s))))
    by (vm_compute; reflexivity).
  assert (Ebal : client_getLoadedBalance node_client (network (snd (getBundlr s)))
                 = (Returned 40%Q, network (snd (getBundlr s))))
    by (vm_compute; reflexivity).
  pose proof (needsFunding_answer (Bytes 100) s node_client _ _ _ Eb Ep) as [K1 K2].
  cbv zeta in K1, K2. split.
  - destruct (K2 40%Q _ Ebal) as (answer & E & Hiff).
    rewrite E. simpl. f_equal. apply Hiff. vm_compute. reflexivity.
  - destruct K1 as (answer & E & Hiff).
    rewrite E. simpl. f_equal. apply Hiff. vm_compute. reflexivity.
Defined.

Lemma marked_up_price_covers_price_witness :
  exists price,
    fst (getMultipliedPrice 3 (sim_state sim_keypair (sim_net 0 []))) = Ok price /\
    (inject_Z 3 <= price)%Q.
Proof.
  set (s := sim_state sim_keypair (sim_net 0 [])).
  assert (Eb : getBundlr s = (Ok node_client, snd (getBundlr s)))
    by (vm_compute; reflexivity).
  assert (Ep : client_getPrice node_client 3 (network (snd (getBundlr s)))
               = (Returned (inject_Z 3), network (snd (getBundlr s))))
    by (vm_compute; reflexivity).
  assert (Hn : 0 <= 3) by (vm_compute; discriminate).
  assert (Hm : (1 <= undefined_or (priceMultiplier (options (driver s))) (3 # 2))%Q)
    by (vm_compute; discriminate).
  destruct (marked_up_price_covers_price 3 s node_client _ 3 _ Eb Ep Hn Hm)
    as (price & E & Hp).
  exists price. split; [rewrite E; reflexivity|exact Hp].
Defined.

Lemma failed_connection_not_stored_witness :
  bundlr (driver (snd (getBundlr (sim_state sim_wallet sim_locked)))) = None.
Proof.
  exact (proj1 (failed_connection_not_stored (sim_state sim_wallet sim_locked)
                  (FailedToInitializeBundlrError "wallet not connected")
                  (snd (getBundlr (sim_state sim_wallet sim_locked)))
                  eq_refl)).
Defined.

Lemma connection_failure_surfaces_witness :
  fst (uploadAll sim_batch (sim_state sim_keypair sim_down))
    = Fail (FailedToConnectToBundlrAddressError "https://node1.bundlr.network" "ECONNREFUSED").
Proof.
  set (s := sim_state sim_keypair sim_down).
  assert (E : getBundlr s
              = (Fail (FailedToConnectToBundlrAddressError
                         "https://node1.bundlr.network" "ECONNREFUSED"),
                 snd (getBundlr s)))
    by (vm_compute; reflexivity).
  destruct (connection_failure_surfaces s _ _ E) as (_ & _ & _ & _ & _ & _ & _ & K & _).
  rewrite (K sim_batch). reflexivity.
Defined.

Lemma first_client_configuration_witness :
  (exists b s1,
     getBundlr {| driver := new_BundlrStorageDriver sim_wallet sim_options;
                  network := sim_net 0 []; calls := [] |} = (Ok b, s1) /\
     handle_address b = "https://devnet.bundlr.network" /\
     client_providerUrl (handle_options b) = Defined "https://rpc.example" /\
     instanceof_WebBundlr b = true) /\
  (exists b s1,
     getBundlr {| driver := new_BundlrStorageDriver sim_keypair sim_options_no_provider;
                  network := sim_net 0 []; calls := [] |} = (Ok b, s1) /\
     handle_address b = "https://node1.bundlr.network" /\
     client_providerUrl (handle_options b) = Undefined) /\
  (exists b s1,
     getBundlr {| driver := new_BundlrStorageDriver sim_keypair no_options;
                  network := sim_net 0 []; calls := [] |} = (Ok b, s1) /\
     client_providerUrl (handle_options b) = Defined "https://api.devnet.solana.com").
Proof.
  split; [|split].
  - set (s := {| driver := new_BundlrStorageDriver sim_wallet sim_options;
                 network := sim_net 0 []; calls := [] |}).
    assert (E : getBundlr s = (Ok (construct_client (driver s)), snd (getBundlr s)))
      by (vm_compute; reflexivity).
    exists (construct_client (driver s)), (snd (getBundlr s)).
    split; [exact E|].
    destruct (first_client_configuration sim_wallet sim_options (sim_net 0 []) _ _ E)
      as (Ka & _ & Kp & _ & Kv).
    split; [exact Ka|]. split; [exact Kp|exact Kv].
  - set (s := {| driver := new_BundlrStorageDriver sim_keypair sim_options_no_provider;
                 network := sim_net 0 []; calls := [] |}).
    assert (E : getBundlr s = (Ok (construct_client (driver s)), snd (getBundlr s)))
      by (vm_compute; reflexivity).
    exists (construct_client (driver s)), (snd (getBundlr s)).
    split; [exact E|].
    destruct (first_client_configuration sim_keypair sim_options_no_provider
                (sim_net 0 []) _ _ E) as (Ka & _ & Kp & _).
    split; [exact Ka|exact Kp].
  - set (s := {| driver := new_BundlrStorageDriver sim_keypair no_options;
                 network := sim_net 0 []; calls := [] |}).
    assert (E : getBundlr s = (Ok (construct_client (driver s)), snd (getBundlr s)))
      by (vm_compute; reflexivity).
    exists (construct_client (driver s)), (snd (getBundlr s)).
    split; [exact E|].
    destruct (first_client_configuration sim_keypair no_options (sim_net 0 []) _ _ E)
      as (_ & _ & Kp & _).
    exact Kp.
Defined.

Lemma uploadAll_call_order_witness :
  exists rest,
    calls (snd (uploadAll sim_batch (sim_state sim_keypair (sim_net 0 sim_accepting))))
    = ([NewBundlr node_client; GetBundlerAddress node_client "solana";
        GetPrice node_client 30; GetLoadedBalance node_client;
        FundCall node_client 45%Q;
        upload_call node_client (sim_file 10);
        upload_call node_client (sim_file 20)] ++ rest)%list.
Proof.
  set (s := sim_state sim_keypair (sim_net 0 sim_accepting)).
  assert (Eb : getBundlr s = (Ok node_client, snd (getBundlr s)))
    by (vm_compute; reflexivity).
  assert (Ep : client_getPrice node_client (total_bytes sim_batch)
                 (network (snd (getBundlr s)))
               = (Returned (inject_Z 30 * 1)%Q, network (snd (getBundlr s))))
    by (vm_compute; reflexivity).
  assert (Ebal : client_getLoadedBalance node_client (network (snd (getBundlr s)))
                 = (Returned 0%Q, network (snd (getBundlr s))))
    by (vm_compute; reflexivity).
  pose proof (uploadAll_call_order sim_batch s node_client _ _ _ _ _
                (snd (client_fund node_client 45%Q (network (snd (getBundlr s)))))
                Eb Ep Ebal) as K.
  cbv zeta in K.
  destruct K as [rest K].
  - vm_compute. reflexivity.
  - vm_compute. reflexivity.
  - exists rest. rewrite K. vm_compute. reflexivity.
Defined.

Lemma uploadAll_success_means_all_accepted_witness :
  List.length ["https://arweave.net/a"; "https://arweave.net/b"] = List.length sim_batch.
Proof.
  set (s := sim_state sim_keypair (sim_net 0 sim_accepting)).
  assert (E : uploadAll sim_batch s
              = (Ok ["https://arweave.net/a"; "https://arweave.net/b"],
                 snd (uploadAll sim_batch s)))
    by (vm_compute; reflexivity).
  exact (proj1 (uploadAll_success_means_all_accepted sim_batch s _ _ E)).
Defined.

(** ** The funded batch and the overlapping calls on the small network *)





End BundlrSpec.
